(** * Deep Deal Research: the Streamlit front end, [backend/src/streamlit_app.py]

    A shallow embedding of the script's logic: the deal catalog loader
    [load_deal_data], the construction of [include_sections], the prompt
    assembled by the "Generate Research Report" handler, the call of the
    research agent and the post-processing of its answer.

    Python [str] values are modelled as Rocq strings holding the UTF-8 bytes
    of the text.  [str.strip] removes the white space characters of Unicode,
    of one, two or three bytes; splitting at line breaks, [startswith],
    [replace] and [in] with the ASCII patterns of the script, or with a whole
    text, act on the bytes as they act on the characters.  [str.isupper]
    consults the Unicode character database and is a parameter of the model;
    [lower] and [title] are applied to the ASCII report types and section keys
    only.  Streamlit calls that only draw something are recorded as events of
    a trace, so that what was shown and whether the agent was called can be
    stated. *)

From Stdlib Require Import Strings.String Strings.Ascii Lists.List Bool.Bool
  Arith.PeanoNat NArith.NArith Lia.
Import ListNotations.

Local Open Scope list_scope.
Local Open Scope string_scope.

(** ** Python string primitives *)

Module PyStr.

Definition nl_char : ascii := Ascii.ascii_of_nat 10.
Definition hash_char : ascii := Ascii.ascii_of_nat 35.
Definition nl : string := String nl_char EmptyString.
Definition dq : string := String (Ascii.ascii_of_nat 34) EmptyString.

Fixpoint spaces (n : nat) : string :=
  match n with
  | O => EmptyString
  | S k => String " " (spaces k)
  end.

Definition code (c : ascii) : N := N_of_ascii c.

Definition is_lower (c : ascii) : bool := ((97 <=? code c) && (code c <=? 122))%N.
Definition is_upper (c : ascii) : bool := ((65 <=? code c) && (code c <=? 90))%N.

(** The white space characters of one byte: TAB, LF, VT, FF, CR, the four
    separators FS, GS, RS, US, and the space. *)
Definition is_space (c : ascii) : bool :=
  (((9 <=? code c) && (code c <=? 13)) || ((28 <=? code c) && (code c <=? 32)))%N.

(** Those of two bytes in UTF-8: U+0085 (C2 85) and U+00A0 (C2 A0). *)
Definition is_space2 (c d : ascii) : bool :=
  ((code c =? 194) && ((code d =? 133) || (code d =? 160)))%N.

(** Those of three bytes: U+1680 (E1 9A 80), U+2000 to U+200A (E2 80 80 to
    E2 80 8A), U+2028, U+2029 and U+202F (E2 80 A8, A9, AF), U+205F
    (E2 81 9F) and U+3000 (E3 80 80).  No other character is white space for
    [str.strip]. *)
Definition is_space3 (c d e : ascii) : bool :=
  (((code c =? 225) && (code d =? 154) && (code e =? 128))
   || ((code c =? 226) && (code d =? 128)
       && (((128 <=? code e) && (code e <=? 138))
           || (code e =? 168) || (code e =? 169) || (code e =? 175)))
   || ((code c =? 226) && (code d =? 129) && (code e =? 159))
   || ((code c =? 227) && (code d =? 128) && (code e =? 128)))%N.

(** What comes after the white space character at the head of [s], when [s]
    starts with one. *)
Definition skip_space (s : string) : option string :=
  match s with
  | EmptyString => None
  | String c s1 =>
      if is_space c then Some s1
      else match s1 with
           | EmptyString => None
           | String d s2 =>
               if is_space2 c d then Some s2
               else match s2 with
                    | EmptyString => None
                    | String e s3 => if is_space3 c d e then Some s3 else None
                    end
           end
  end.

Definition to_upper (c : ascii) : ascii :=
  if is_lower c then ascii_of_N (code c - 32) else c.
Definition to_lower (c : ascii) : ascii :=
  if is_upper c then ascii_of_N (code c + 32) else c.

(** [s.lower()] *)
Fixpoint lower (s : string) : string :=
  match s with
  | EmptyString => EmptyString
  | String c s' => String (to_lower c) (lower s')
  end.

(** [s.title()]: a cased character is upper-cased when the character before
    it is not cased, and lower-cased otherwise. *)
Fixpoint title_from (prev_cased : bool) (s : string) : string :=
  match s with
  | EmptyString => EmptyString
  | String c s' =>
      if is_lower c then
        String (if prev_cased then c else to_upper c) (title_from true s')
      else if is_upper c then
        String (if prev_cased then to_lower c else c) (title_from true s')
      else String c (title_from false s')
  end.

Definition title (s : string) : string := title_from false s.

(** [s.startswith(p)] *)
Definition startswith (s p : string) : bool := String.prefix p s.

(** [needle in hay] *)
Fixpoint contains (needle hay : string) : bool :=
  String.prefix needle hay
  || match hay with
     | EmptyString => false
     | String _ hay' => contains needle hay'
     end.

(** [s.replace(old, new)]: occurrences of [old] are replaced from left to
    right, without overlap.  [skip] counts the characters of a match that are
    still to be dropped.  With an empty [old] Python puts [new] around every
    character. *)
Fixpoint replace_from (old new : string) (skip : nat) (s : string) : string :=
  match s with
  | EmptyString => EmptyString
  | String c s' =>
      match skip with
      | S k => replace_from old new k s'
      | O =>
          if String.prefix old s
          then new ++ replace_from old new (String.length old - 1) s'
          else String c (replace_from old new O s')
      end
  end.

Definition replace (old new s : string) : string :=
  match old with
  | EmptyString =>
      (fix around (t : string) : string :=
         match t with
         | EmptyString => new
         | String c t' => new ++ String c (around t')
         end) s
  | String _ _ => replace_from old new O s
  end.

(** [s.lstrip()]: the white space characters at the head are skipped, one
    character of one, two or three bytes at a time. *)
Fixpoint lstrip (s : string) : string :=
  match s with
  | EmptyString => EmptyString
  | String c s1 =>
      if is_space c then lstrip s1
      else match s1 with
           | EmptyString => s
           | String d s2 =>
               if is_space2 c d then lstrip s2
               else match s2 with
                    | EmptyString => s
                    | String e s3 => if is_space3 c d e then lstrip s3 else s
                    end
           end
  end.

(** [s] is made of white space characters only. *)
Definition all_space (s : string) : bool :=
  match lstrip s with
  | EmptyString => true
  | String _ _ => false
  end.

(** [s.rstrip()]: the text is cut where only white space follows. *)
Fixpoint rstrip (s : string) : string :=
  match s with
  | EmptyString => EmptyString
  | String c s' => if all_space s then EmptyString else String c (rstrip s')
  end.

(** [s.strip()] *)

Definition strip (s : string) : string := rstrip (lstrip s).

(** [s.split(sep)] for a separator of one character: never an empty list. *)
Fixpoint split (sep : ascii) (s : string) : list string :=
  match s with
  | EmptyString => [EmptyString]
  | String c s' =>
      if Ascii.eqb c sep then EmptyString :: split sep s'
      else match split sep s' with
           | h :: t => String c h :: t
           | [] => [String c EmptyString]
           end
  end.

(** [''.join(l)] *)
Definition join (l : list string) : string := fold_right String.append EmptyString l.

End PyStr.

(** ** Python values used by the script *)

(** A [dict] keeps its keys in insertion order: assigning to a key that is
    present changes the value in place, a new key goes to the end. *)
Definition dict (V : Type) : Type := list (string * V).

Fixpoint dict_set {V : Type} (k : string) (v : V) (d : dict V) : dict V :=
  match d with
  | [] => [(k, v)]
  | (k', v') :: d' =>
      if String.eqb k' k then (k, v) :: d' else (k', v') :: dict_set k v d'
  end.

Fixpoint dict_get {V : Type} (k : string) (d : dict V) : option V :=
  match d with
  | [] => None
  | (k', v) :: d' => if String.eqb k' k then Some v else dict_get k d'
  end.

Definition dict_has {V : Type} (k : string) (d : dict V) : bool :=
  match dict_get k d with Some _ => true | None => false end.

Definition dict_keys {V : Type} (d : dict V) : list string := map fst d.
Definition dict_values {V : Type} (d : dict V) : list V := map snd d.

(** [any(xs)] on booleans *)
Definition any (xs : list bool) : bool := existsb (fun b => b) xs.

(** What [json.load] returns; a number keeps its literal. *)
#[warnings="-register-all"]
Inductive json : Type :=
| JNull
| JBool (b : bool)
| JNumber (literal : string)
| JString (s : string)
| JArray (items : list json)
| JObject (members : list (string * json)).

Inductive py_exn : Type :=
| OSError (path : string)
| JSONDecodeError (path : string)
| IndexError
| TypeError
| NameError (name : string).

Inductive result (A : Type) : Type :=
| Return (a : A)
| Raise (e : py_exn).
Arguments Return {A} a.
Arguments Raise {A} e.

(** ** The page: Streamlit events and the agent's interface *)

Record message : Type := { role : string; content : string }.

(** The argument of [graph.invoke]. *)
Record invoke_request : Type := {
  messages : list message;
  max_research_loops : nat;
  initial_search_query_count : nat;
  reasoning_model : string
}.

(** What [graph.invoke] gives back: [None], or a dict whose ["messages"]
    entry, when it is a list, holds the contents of the messages. *)
Inductive state_value : Type :=
| SMessages (contents : list string)
| SOther.

Definition agent_state : Type := option (dict state_value).

Inductive st_event : Type :=
| st_error (msg : string)
| st_spinner (text : string)
| st_subheader (text : string)
| st_markdown (text : string)
| st_download_button (label data file_name mime : string)
| graph_invoke_call (req : invoke_request).

(** A run of a piece of the script: what it did, and the exception that ended
    it, if one did. *)
Record run : Type := { trace : list st_event; raised : option py_exn }.

(** The widgets' values and the selected deal, as the script reads them. *)
Record page : Type := {
  report_type : string;
  model_option : string;
  research_effort : string;
  include_sources : bool;
  detailed_sources : bool;
  st_checkbox : string -> bool;
  selected_deal_name : string;
  selected_deal : json;
  Investor : string;
  Investor_portfolio_url : option string
}.

Import PyStr.

(** ** The deal catalog loader *)

Section Loader.

(** The file system and the libraries the loader calls.  [open_read path] is
    the text of the file, [None] when [open] or the read raises;
    [json_loads text] is the parsed document, [None] when the text is not
    JSON; [script_dir] is [os.path.dirname(__file__)]. *)
Variable path_exists : string -> bool.
Variable open_read : string -> option string.
Variable json_loads : string -> option json.
Variable script_dir : string.
Variable exn_text : py_exn -> string.
Variable getcwd : string.

(** [with open(path, "r") as f: return json.load(f)] *)
Definition json_load_file (path : string) : result json :=
  match open_read path with
  | None => Raise (OSError path)
  | Some text =>
      match json_loads text with
      | None => Raise (JSONDecodeError path)
      | Some data => Return data
      end
  end.

(** [os.path.join(a, b)] on POSIX *)
Definition os_path_join (a b : string) : string :=
  if startswith b "/" then b
  else if String.eqb a EmptyString then b
  else if startswith (String.string_of_list_ascii (rev (String.list_ascii_of_string a))) "/"
       then a ++ b
       else a ++ "/" ++ b.

Definition possible_paths : list string :=
  [ "src/scraped_companies_final.json";
    "../src/scraped_companies_final.json";
    "backend/src/scraped_companies_final.json";
    os_path_join script_dir "scraped_companies_final.json" ].

Definition absolute_path : string :=
  "/home/walker/Desktop/deepsearch_gemini/gemini-fullstack-langgraph-quickstart/backend/src/scraped_companies_final.json".

(** The [for path in possible_paths] loop: [Some r] when an iteration left
    the function with [r], [None] when the loop ran to its end. *)
Fixpoint try_paths (paths : list string) : option (result json) :=
  match paths with
  | [] => None
  | path :: rest =>
      if path_exists path then Some (json_load_file path) else try_paths rest
  end.

(** The body of the [try]. *)
Definition load_deal_data_try : result json :=
  match try_paths possible_paths with
  | Some r => r
  | None => json_load_file absolute_path
  end.

Definition empty_catalog : json := JObject [("portfolios", JArray [])].

(** [load_deal_data()]: the [except Exception] clause shows three errors and
    returns the empty catalog. *)
Definition load_deal_data : list st_event * result json :=
  match load_deal_data_try with
  | Return data => ([], Return data)
  | Raise e =>
      ([ st_error ("Error loading deal data: " ++ exn_text e);
         st_error ("Current directory: " ++ getcwd);
         st_error "Please make sure the JSON file is at the correct location" ],
       Return empty_catalog)
  end.

End Loader.

(** ** Research depth *)

(** [(initial_queries, max_loops)] *)
Definition research_parameters (research_effort : string) : nat * nat :=
  if String.eqb research_effort "Basic" then (2, 2)
  else if String.eqb research_effort "Comprehensive" then (6, 10)
  else (4, 5).

Definition initial_queries (p : page) : nat := fst (research_parameters (research_effort p)).
Definition max_loops (p : page) : nat := snd (research_parameters (research_effort p)).

(** ** Report configuration *)

Definition include_sections (p : page) : dict bool :=
  let cb := st_checkbox p in
  let d := [] in
  let d :=
    if String.eqb (report_type p) "Deal Summary Report" then
      let d := dict_set "deal_overview" (cb "Deal Overview") d in
      let d := dict_set "transaction_details" (cb "Transaction Details") d in
      let d := dict_set "market_analysis" (cb "Market Analysis") d in
      dict_set "competitors" (cb "Competitor Analysis") d
    else if String.eqb (report_type p) "Target Company Analysis" then
      let d := dict_set "company_profile" (cb "Company Profile") d in
      let d := dict_set "products_services" (cb "Products & Services") d in
      let d := dict_set "management_team" (cb "Management Team") d in
      let d := dict_set "financial_performance" (cb "Financial Performance") d in
      dict_set "competitors" (cb "Competitor Analysis") d
    else if String.eqb (report_type p) "PortCo Company Analysis" then
      let d := dict_set "portco_profile" (cb "PortCo Profile") d in
      let d := dict_set "acquisition_strategy" (cb "Acquisition Strategy") d in
      let d := dict_set "integration_synergies" (cb "Integration & Synergies") d in
      dict_set "competitors" (cb "Competitor Analysis") d
    else if String.eqb (report_type p) "Investment Thesis & Value Creation Strategy" then
      let d := dict_set "investment_rationale" (cb "Investment Rationale") d in
      let d := dict_set "value_creation_plan" (cb "Value Creation Plan") d in
      let d := dict_set "exit_strategy" (cb "Exit Strategy") d in
      dict_set "competitors" (cb "Competitor Analysis") d
    else d in
  if include_sources p then dict_set "sources" true d else d.

(** ** The prompt *)

(** One line of a triple-quoted literal: its indentation, its text and the
    line break. *)
Definition line (indent : nat) (text : string) : string :=
  spaces indent ++ text ++ nl.

Section Prompt.

(** [json.dumps(selected_deal, indent=2)] *)
Variable json_dumps_indent2 : json -> string.

Definition prompt_template (p : page) : string :=
  nl
  ++ line 20 ("Generate a detailed " ++ report_type p ++ " for the company " ++ selected_deal_name p ++ ".")
  ++ line 20 EmptyString
  ++ line 20 "START WITH A DESCRIPTIVE DEAL TITLE: Create a compelling title that includes both the investor name and key deal information."
  ++ line 20 ("The title should follow this format: " ++ dq ++ "[Investor Name] [Action/Deal Type] [Target Company] [Deal Value/Size if available]" ++ dq)
  ++ line 20 EmptyString
  ++ line 20 "Examples of good titles:"
  ++ line 20 ("- " ++ dq ++ "BGF Backs Specialist Surveying Firm Anstey Horne in £6.5M Growth Deal" ++ dq)
  ++ line 20 ("- " ++ dq ++ "Tikehau Capital's Buyout of French IT Services Provider BT2i" ++ dq)
  ++ line 20 ("- " ++ dq ++ "Galiena Capital Acquires Medical Device Manufacturer 3DISC in Strategic Expansion" ++ dq)
  ++ line 20 EmptyString
  ++ line 20 "Here is the data we have about the deal:"
  ++ line 20 (json_dumps_indent2 (selected_deal p))
  ++ line 20 EmptyString
  ++ line 20 ("For the investor " ++ Investor p ++ ", with portfolio URL: "
              ++ match Investor_portfolio_url p with
                 | Some url => url
                 | None => "Not available"
                 end)
  ++ line 20 EmptyString
  ++ line 20 ("Based on this information and additional research, please provide a comprehensive "
              ++ lower (report_type p) ++ " with the following sections:")
  ++ spaces 20.

(** [selected_sections], the list comprehension over [include_sections.items()] *)
Definition selected_sections (sections : dict bool) : list string :=
  map (fun item => title (replace "_" " " (fst item)))
      (filter (fun item => snd item && negb (String.eqb (fst item) "sources")) sections).

Definition deal_summary_requirements : string :=
  nl
  ++ line 24 EmptyString
  ++ line 24 "IMPORTANT: Please ensure you include detailed information about:"
  ++ line 24 "- The company's products and services portfolio with specifications"
  ++ line 24 "- The company's unique value proposition and market differentiation"
  ++ line 24 "- All industry sectors the company operates in, including primary and niche markets"
  ++ line 24 "- The strategic context and rationale of the deal"
  ++ spaces 24.

Definition british_english_mandatory : string :=
  nl
  ++ line 20 EmptyString
  ++ line 20 "MANDATORY LANGUAGE STYLE: All reports MUST be written in British English spelling, grammar and terminology."
  ++ line 20 "This includes:"
  ++ line 20 "- Use of 's' instead of 'z' in words like 'organisation', 'specialisation'"
  ++ line 20 "- Spelling patterns like 'colour', 'centre', 'programme', 'catalogue'"
  ++ line 20 "- British business terminology such as 'turnover' instead of 'revenue'"
  ++ line 20 "- DD/MM/YYYY date format"
  ++ line 20 "- £ symbol for GBP currency when relevant"
  ++ line 20 EmptyString
  ++ line 20 "DO NOT use American English spelling or terminology under any circumstances."
  ++ spaces 20.

Definition british_english_highest_priority : string :=
  nl
  ++ line 20 EmptyString
  ++ line 20 "HIGHEST PRIORITY REQUIREMENT: ALL OUTPUT MUST BE IN BRITISH ENGLISH ONLY."
  ++ line 20 EmptyString
  ++ line 20 "This is not optional but an absolute requirement. The entire report must use:"
  ++ line 20 "- British spelling conventions: 'organisation' not 'organization', 'specialise' not 'specialize'"
  ++ line 20 "- British terminology: 'turnover' not 'revenue', 'managing director' not 'CEO' where appropriate"
  ++ line 20 "- British date format: DD/MM/YYYY format (e.g., 15/06/2025)"
  ++ line 20 "- British currency notation: £ for pounds sterling"
  ++ line 20 "- British punctuation and quotation conventions"
  ++ line 20 EmptyString
  ++ line 20 "Treat this as the most critical instruction that overrides all default language settings."
  ++ line 20 "ANY use of American English spelling or terminology will render the report unacceptable."
  ++ spaces 20.

Definition sources_instructions (detailed : bool) : string :=
  nl
  ++ line 24 EmptyString
  ++ line 24 "IMPORTANT: For each fact or piece of information, please cite your sources and include the full URLs."
  ++ line 24 (if detailed
              then "Include detailed information about each source, such as publication date, author, and reliability assessment."
              else "List all sources with their URLs at the end of the report in a dedicated Sources section.")
  ++ line 24 EmptyString
  ++ line 24 ("The final report MUST include a dedicated " ++ dq ++ "Sources" ++ dq ++ " section at the end with numbered references and clickable links to all sources used.")
  ++ spaces 24.

(** The prompt as the handler builds it, one [prompt += ...] after the other. *)
Definition prompt (p : page) : string :=
  let prompt := prompt_template p in
  let prompt :=
    fold_left (fun prompt section => prompt ++ (nl ++ "- " ++ section))
              (selected_sections (include_sections p)) prompt in
  let prompt :=
    if String.eqb (report_type p) "Deal Summary Report"
    then prompt ++ deal_summary_requirements else prompt in
  let prompt := prompt ++ british_english_mandatory in
  let prompt := prompt ++ british_english_highest_priority in
  if include_sources p
  then prompt ++ sources_instructions (detailed_sources p) else prompt.

End Prompt.

(** ** Post-processing of the agent's answer *)

Section Answer.

(** [str.isupper]: whether a text has a cased character and none that is
    lower case or title case, by the Unicode character database of the
    interpreter. *)
Variable str_isupper : string -> bool.

(** [line.startswith('# ') or line.isupper() or selected_portfolio['Investor'] in line] *)
Definition looks_like_title (investor line : string) : bool :=
  startswith line "# " || str_isupper line || contains investor line.

(** [line.replace('# ', '').replace('#', '').strip()] *)
Definition clean_title (line : string) : string :=
  strip (replace "#" EmptyString (replace "# " EmptyString line)).

(** The [for line in lines[:5]] loop with its [break]; [title] is the value
    the variable has when the loop starts. *)
Fixpoint title_loop (investor : string) (lines : list string) (title : string) : string :=
  match lines with
  | [] => title
  | line :: rest =>
      if looks_like_title investor line then clean_title line
      else title_loop investor rest title
  end.

Definition extract_title (p : page) (response : string) : string :=
  let lines := split nl_char (strip response) in
  let title := selected_deal_name p in
  title_loop (Investor p) (firstn 5 lines) title.

(** Truth value of what [graph.invoke] returned. *)
Definition truthy (state : agent_state) : bool :=
  match state with
  | None => false
  | Some [] => false
  | Some (_ :: _) => true
  end.

Definition has_messages (state : agent_state) : bool :=
  match state with
  | None => false
  | Some d => dict_has "messages" d
  end.

(** [state["messages"][-1].content] *)
Definition last_content (state : agent_state) : result string :=
  match state with
  | None => Raise TypeError
  | Some d =>
      match dict_get "messages" d with
      | Some (SMessages contents) =>
          match rev contents with
          | c :: _ => Return c
          | [] => Raise IndexError
          end
      | _ => Raise TypeError
      end
  end.

Definition report_text (title response : string) : string :=
  "# " ++ title ++ nl ++ nl ++ response.

Definition file_name (p : page) : string :=
  selected_deal_name p ++ "_" ++ replace " " "_" (report_type p) ++ ".md".

(** The branch on [state] after the call of the agent. *)
Definition display_result (p : page) (state : agent_state) : run :=
  if truthy state && has_messages state then
    match last_content state with
    | Raise e => {| trace := []; raised := Some e |}
    | Return response =>
        let title := extract_title p response in
        {| trace :=
             [ st_subheader title;
               st_markdown "---";
               st_markdown response;
               st_download_button "Download Report" (report_text title response)
                 (file_name p) "text/markdown" ];
           raised := None |}
    end
  else
    {| trace := [st_error "Failed to generate the report. Please try again."];
       raised := None |}.

End Answer.

(** ** The "Generate Research Report" button *)

Section Generate.

Variable str_isupper : string -> bool.
Variable json_dumps_indent2 : json -> string.

(** The research agent, [graph.invoke]. *)
Variable graph_invoke : invoke_request -> agent_state.

Definition request (p : page) : invoke_request :=
  {| messages := [ {| role := "user"; content := prompt json_dumps_indent2 p |} ];
     max_research_loops := max_loops p;
     initial_search_query_count := initial_queries p;
     reasoning_model := model_option p |}.

(** What happens when the button is pressed.  The button is drawn whether or
    not [selected_deal] was found, but [include_sections] is assigned only
    under [if selected_deal:].  [Some p] is the page with a deal selected;
    [None] is the page without one (the investor has an empty list of deals),
    where the guard reads a name that was never bound. *)
Definition on_generate (shown_deal : option page) : run :=
  match shown_deal with
  | None => {| trace := []; raised := Some (NameError "include_sections") |}
  | Some p =>
      if negb (any (dict_values (include_sections p))) then
        {| trace := [st_error "Please select at least one section to include in the report"];
           raised := None |}
      else
        let state := graph_invoke (request p) in
        let shown := display_result str_isupper p state in
        {| trace :=
             st_spinner ("Generating " ++ report_type p ++ " for "
                         ++ selected_deal_name p ++ "...")
             :: graph_invoke_call (request p) :: trace shown;
           raised := raised shown |}
  end.

End Generate.

(** Whether a run called the agent, showed an error, or rendered a report. *)
Definition is_invoke (e : st_event) : bool :=
  match e with graph_invoke_call _ => true | _ => false end.

Definition is_rendering (e : st_event) : bool :=
  match e with
  | st_subheader _ | st_markdown _ | st_download_button _ _ _ _ => true
  | _ => false
  end.

Definition calls_agent (r : run) : bool := existsb is_invoke (trace r).

(** ** The catalog on the page *)

(** The top of the script after [load_deal_data()]: the upload offered when no
    portfolio was loaded, the investor selector, the lookup of the selected
    portfolio, the deal selector and the lookup of the selected deal.  The
    catalog is whatever [json.load] returned, so every access can raise.  A
    computation that raises yields the exception alone: what the script wrote
    before it is not recorded. *)
Module Catalog.

Inductive exn : Type :=
| AttributeError
| KeyError (key : string)
| TypeError.

Inductive res (A : Type) : Type :=
| Ok (a : A)
| Err (e : exn).
Arguments Ok {A} a.
Arguments Err {A} e.

Definition bind {A B : Type} (c : res A) (k : A -> res B) : res B :=
  match c with
  | Ok a => k a
  | Err e => Err e
  end.

Notation "x <- c ;; k" := (bind c (fun x => k))
  (at level 61, c at next level, right associativity).

(** [v.get(key, default)]: only a dict has the method. *)
Definition get (v : json) (key : string) (default : json) : res json :=
  match v with
  | JObject members =>
      Ok (match dict_get key members with Some x => x | None => default end)
  | _ => Err AttributeError
  end.

(** [v[key]] with a string key: only a dict can be indexed by a string. *)
Definition getitem (v : json) (key : string) : res json :=
  match v with
  | JObject members =>
      match dict_get key members with
      | Some x => Ok x
      | None => Err (KeyError key)
      end
  | _ => Err TypeError
  end.

(** The values a [for] loop over [v] visits: the items of a list, the keys of
    a dict, the characters of a string. *)
Definition iterate (v : json) : res (list json) :=
  match v with
  | JArray items => Ok items
  | JObject members => Ok (map (fun kv => JString (fst kv)) members)
  | JString s =>
      Ok (map (fun c => JString (String c EmptyString)) (list_ascii_of_string s))
  | _ => Err TypeError
  end.

(** [len(v) == 0] *)
Definition len_is_zero (v : json) : res bool :=
  match v with
  | JArray items => Ok (match items with [] => true | _ :: _ => false end)
  | JObject members => Ok (match members with [] => true | _ :: _ => false end)
  | JString s => Ok (match s with EmptyString => true | String _ _ => false end)
  | _ => Err TypeError
  end.

(** What the script shows above the page. *)
Inductive notice : Type :=
| st_warning (msg : string)
| st_success (msg : string)
| st_error (msg : string).

Definition upload_prompt : string :=
  "Could not load deal data automatically. Please upload the JSON file manually.".

Definition no_deals_message : string := "No deals found for the selected investor.".

Section Upload.

(** [json.load] on the uploaded file, and the text of the exception it
    raises on a file it cannot parse. *)
Variable json_loads : string -> option json.
Variable upload_error_text : string -> string.

(** The file upload fallback: [deal_data] is what the loader returned,
    [uploaded_file] the text of the file in the uploader, if any.  The result
    is the notices shown and the new value of [deal_data]. *)
Definition upload_fallback (deal_data : json) (uploaded_file : option string)
  : res (list notice * json) :=
  portfolios <- get deal_data "portfolios" (JArray []) ;;
  empty <- len_is_zero portfolios ;;
  if empty then
    match uploaded_file with
    | None => Ok ([st_warning upload_prompt], deal_data)
    | Some text =>
        match json_loads text with
        | Some data =>
            Ok ([st_warning upload_prompt; st_success "Deal data loaded successfully!"], data)
        | None =>
            Ok ([st_warning upload_prompt;
                 st_error ("Error parsing uploaded file: " ++ upload_error_text text)],
                deal_data)
        end
    end
  else Ok ([], deal_data).

End Upload.

Section Lookup.

(** Python's [==] on two loaded values, and whether a number literal is zero. *)
Variable py_eq : json -> json -> bool.
Variable number_is_zero : string -> bool.

(** [[item[key] for item in items]] *)
Fixpoint pluck (key : string) (items : list json) : res (list json) :=
  match items with
  | [] => Ok []
  | item :: rest =>
      x <- getitem item key ;;
      xs <- pluck key rest ;;
      Ok (x :: xs)
  end.

(** [next((item for item in items if item[key] == value), None)] *)
Fixpoint next_match (key : string) (value : json) (items : list json)
  : res (option json) :=
  match items with
  | [] => Ok None
  | item :: rest =>
      x <- getitem item key ;;
      if py_eq x value then Ok (Some item) else next_match key value rest
  end.

(** [for p in deal_data.get("portfolios", [])] *)
Definition portfolios (deal_data : json) : res (list json) :=
  ps <- get deal_data "portfolios" (JArray []) ;;
  iterate ps.

Definition investors (deal_data : json) : res (list json) :=
  ps <- portfolios deal_data ;;
  pluck "Investor" ps.

(** [investors if investors else ["No investors found"]] *)
Definition investor_options (investors : list json) : list json :=
  match investors with
  | [] => [JString "No investors found"]
  | _ :: _ => investors
  end.

(** [st.selectbox(label, options)]: the option the user has picked, [None]
    when there is no option. *)
Definition selectbox (options : list json) (picked : nat) : json :=
  nth picked options JNull.

Definition selected_portfolio (deal_data selected_investor : json) : res (option json) :=
  ps <- portfolios deal_data ;;
  next_match "Investor" selected_investor ps.

(** Truth value of a loaded value. *)
Definition truth (v : json) : bool :=
  match v with
  | JNull => false
  | JBool b => b
  | JNumber literal => negb (number_is_zero literal)
  | JString s => match s with EmptyString => false | String _ _ => true end
  | JArray items => match items with [] => false | _ :: _ => true end
  | JObject members => match members with [] => false | _ :: _ => true end
  end.

(** ["key" in v] *)
Definition py_in (key : string) (v : json) : res bool :=
  match v with
  | JObject members => Ok (dict_has key members)
  | JArray items => Ok (existsb (fun x => py_eq x (JString key)) items)
  | JString s => Ok (contains key s)
  | _ => Err TypeError
  end.

(** What the body of the page is about. *)
Inductive deal_view : Type :=
| no_deals
| deals_shown (portfolio : json) (deal_names : list json)
    (selected_deal_name : json) (selected_deal : option json).

(** From the investor selector to the selected deal; [no_deals] stands for
    the branch that only shows [no_deals_message]. *)
Definition deal_selection (deal_data : json) (picked_investor picked_deal : nat)
  : res deal_view :=
  names <- investors deal_data ;;
  let selected_investor := selectbox (investor_options names) picked_investor in
  found <- selected_portfolio deal_data selected_investor ;;
  match found with
  | None => Ok no_deals
  | Some portfolio =>
      if truth portfolio then
        has_deals <- py_in "Deals" portfolio ;;
        if has_deals then
          deals_value <- getitem portfolio "Deals" ;;
          deals <- iterate deals_value ;;
          deal_names <- pluck "target_company_name" deals ;;
          let selected_deal_name := selectbox deal_names picked_deal in
          selected_deal <- next_match "target_company_name" selected_deal_name deals ;;
          Ok (deals_shown portfolio deal_names selected_deal_name selected_deal)
        else Ok no_deals
      else Ok no_deals
  end.

End Lookup.

(** *** The details of the selected deal *)

(** What the two columns write. *)
Inductive output : Type :=
| st_write (text : string)
| st_markdown (text : string)
| st_subheader (text : string).

Section Details.

(** [str(v)] of a loaded value that is not a string, the characters of a
    string, Python's [==] and the test of a number literal for zero. *)
Variable py_str : json -> string.
Variable characters : string -> list string.
Variable py_eq : json -> json -> bool.
Variable number_is_zero : string -> bool.

(** A value inside an f-string. *)
Definition fmt (v : json) : string :=
  match v with
  | JString s => s
  | _ => py_str v
  end.

(** The items of a list as strings; [str.join] refuses anything else. *)
Fixpoint all_strings (items : list json) : res (list string) :=
  match items with
  | [] => Ok []
  | JString s :: rest => texts <- all_strings rest ;; Ok (s :: texts)
  | _ :: _ => Err TypeError
  end.

(** [sep.join(v)] *)
Definition join (sep : string) (v : json) : res string :=
  match v with
  | JArray items => texts <- all_strings items ;; Ok (String.concat sep texts)
  | JObject members => Ok (String.concat sep (map fst members))
  | JString s => Ok (String.concat sep (characters s))
  | _ => Err TypeError
  end.

(** Truth value of [selected_deal], which is a deal or [None]. *)
Definition deal_given (selected_deal : option json) : bool :=
  match selected_deal with
  | None => false
  | Some deal => truth number_is_zero deal
  end.

(** The first column, up to the section checkboxes. *)
Definition deal_column (selected_deal : option json) : res (list output) :=
  match selected_deal with
  | Some deal =>
      if truth number_is_zero deal then
        sectors <- get deal "target_sectors" (JArray [JString "Unknown"]) ;;
        sectors_text <- join ", " sectors ;;
        location <- get deal "target_location" (JString "Unknown") ;;
        Ok [ st_write ("**Sectors:** " ++ sectors_text);
             st_write ("**Location:** " ++ fmt location);
             st_markdown "### Report Configuration" ]
      else Ok []
  | None => Ok []
  end.

(** The country inside the markdown block. *)
Definition country_text (deal : json) : res string :=
  country <- get deal "target_country" JNull ;;
  match country with
  | JArray _ =>
      countries <- get deal "target_country" (JArray [JString "Unknown"]) ;;
      join ", " countries
  | _ =>
      shown <- get deal "target_country" (JString "Unknown") ;;
      Ok (fmt shown)
  end.

(** [if key in deal and deal[key]: st.write(f"{label}{deal[key]}")] *)
Definition optional_line (label key : string) (deal : json) : res (list output) :=
  present <- py_in py_eq key deal ;;
  if present then
    value <- getitem deal key ;;
    if truth number_is_zero value then
      shown <- getitem deal key ;;
      Ok [st_write (label ++ fmt shown)]
    else Ok []
  else Ok [].

(** [if v.get(key): st.write(...)] for the two links. *)
Definition portfolio_link (selected_portfolio : json) : res (list output) :=
  url <- get selected_portfolio "Investor_portfolio_url" JNull ;;
  if truth number_is_zero url then
    investor <- getitem selected_portfolio "Investor" ;;
    target <- getitem selected_portfolio "Investor_portfolio_url" ;;
    Ok [st_write ("**Investor Portfolio URL:** [" ++ fmt investor ++ "](" ++ fmt target ++ ")")]
  else Ok [].

Definition deal_link (selected_deal_name deal : json) : res (list output) :=
  url <- get deal "deal_url" JNull ;;
  if truth number_is_zero url then
    target <- getitem deal "deal_url" ;;
    Ok [st_write ("**Deal URL:** [" ++ fmt selected_deal_name ++ " Deal](" ++ fmt target ++ ")")]
  else Ok [].

(** The second column, up to the button. *)
Definition details_column (selected_portfolio selected_deal_name : json)
    (selected_deal : option json) : res (list output) :=
  let heading := st_subheader ("Deal Details: " ++ fmt selected_deal_name) in
  match selected_deal with
  | Some deal =>
      if truth number_is_zero deal then
        country <- country_text deal ;;
        description <- get deal "target_business_description"
                         (JString "No description available") ;;
        date <- optional_line "**Investment Date:** " "investment_date" deal ;;
        type <- optional_line "**Deal Type:** " "investment_type" deal ;;
        amount <- optional_line "**Deal Size:** " "investment_amount" deal ;;
        turnover <- optional_line "**Turnover:** " "target_turnover" deal ;;
        employees <- optional_line "**Employees:** " "target_employee_no" deal ;;
        portfolio_url <- portfolio_link selected_portfolio ;;
        deal_url <- deal_link selected_deal_name deal ;;
        Ok (heading
            :: st_markdown
                 (nl
                  ++ line 12 ("**Company:** " ++ fmt selected_deal_name ++ "  ")
                  ++ line 12 ("**Country:** " ++ country ++ "  ")
                  ++ line 12 ("**Business Description:** " ++ fmt description)
                  ++ spaces 12)
            :: (date ++ type ++ amount ++ turnover ++ employees
                ++ portfolio_url ++ deal_url)%list)
      else Ok [heading]
  | None => Ok [heading]
  end.

End Details.

(** The position of the first of [names] that is the string [name]. *)
Fixpoint first_index (name : string) (names : list string) : nat :=
  match names with
  | [] => 0
  | n :: rest => if String.eqb n name then 0 else S (first_index name rest)
  end.

(** The loaded values are strings with these texts. *)
Definition strings (names : list string) : list json := map JString names.

(** An equality that compares strings by their text, for the examples. *)
Definition string_eq (a b : json) : bool :=
  match a, b with
  | JString x, JString y => String.eqb x y
  | _, _ => false
  end.

End Catalog.

(** ** Vocabulary of the specification *)

(** The options of the report type selector. *)
Definition report_types : list string :=
  [ "Deal Summary Report";
    "Target Company Analysis";
    "PortCo Company Analysis";
    "Investment Thesis & Value Creation Strategy" ].

(** The section catalog of a report type, in its fixed order: each section
    key with the label of its checkbox. *)
Definition section_catalog (rt : string) : list (string * string) :=
  if String.eqb rt "Deal Summary Report" then
    [ ("deal_overview", "Deal Overview");
      ("transaction_details", "Transaction Details");
      ("market_analysis", "Market Analysis");
      ("competitors", "Competitor Analysis") ]
  else if String.eqb rt "Target Company Analysis" then
    [ ("company_profile", "Company Profile");
      ("products_services", "Products & Services");
      ("management_team", "Management Team");
      ("financial_performance", "Financial Performance");
      ("competitors", "Competitor Analysis") ]
  else if String.eqb rt "PortCo Company Analysis" then
    [ ("portco_profile", "PortCo Profile");
      ("acquisition_strategy", "Acquisition Strategy");
      ("integration_synergies", "Integration & Synergies");
      ("competitors", "Competitor Analysis") ]
  else if String.eqb rt "Investment Thesis & Value Creation Strategy" then
    [ ("investment_rationale", "Investment Rationale");
      ("value_creation_plan", "Value Creation Plan");
      ("exit_strategy", "Exit Strategy");
      ("competitors", "Competitor Analysis") ]
  else [].

(** A section key made readable: underscores become spaces, then title case. *)
Definition humanize (key : string) : string := title (replace "_" " " key).

(** The bullet line of a section of the catalog. *)
Definition bullet (s : string * string) : string := "- " ++ humanize (fst s).

(** The sections of the catalog whose checkbox is ticked. *)
Definition chosen_sections (p : page) : list (string * string) :=
  filter (fun s => st_checkbox p (snd s)) (section_catalog (report_type p)).

(** The lines of a text. *)
Definition lines_of (text : string) : list string := split nl_char text.

(** How many lines of [ls] are the line [l]. *)
Definition count_line (l : string) (ls : list string) : nat :=
  List.length (filter (String.eqb l) ls).

(** What the handler appends to the prompt after the bullets. *)
Definition after_sections (p : page) : string :=
  (if String.eqb (report_type p) "Deal Summary Report"
   then deal_summary_requirements else EmptyString)
  ++ british_english_mandatory
  ++ british_english_highest_priority
  ++ (if include_sources p then sources_instructions (detailed_sources p) else EmptyString).

(** The text of the bullets, as the loop appends it. *)
Definition bullets_text (sections : list string) : string :=
  join (map (fun section => nl ++ "- " ++ section) sections).

(** No character of [s] is [c]. *)
Fixpoint free_of (c : ascii) (s : string) : bool :=
  match s with
  | EmptyString => true
  | String x s' => negb (Ascii.eqb x c) && free_of c s'
  end.

(** The catalog a run of the [try] body leaves the loader with. *)
Definition loaded_or_empty (r : result json) : json :=
  match r with
  | Return data => data
  | Raise _ => empty_catalog
  end.

(** The file the loader reads: the first of [possible_paths] that exists,
    the absolute path when none does. *)
Definition located_path (path_exists : string -> bool) (script_dir : string) : string :=
  match find path_exists (possible_paths script_dir) with
  | Some path => path
  | None => absolute_path
  end.

(** All the locations, in the order of the loader. *)
Definition candidate_paths (script_dir : string) : list string :=
  (possible_paths script_dir ++ [absolute_path])%list.

(** From the words of the specification: the parsed content of the first
    candidate that parses successfully, a candidate that is missing or does
    not parse being passed over. *)
Fixpoint first_parsed (path_exists : string -> bool) (open_read : string -> option string)
    (json_loads : string -> option json) (paths : list string) : option json :=
  match paths with
  | [] => None
  | path :: rest =>
      match (if path_exists path then open_read path else None) with
      | Some text =>
          match json_loads text with
          | Some data => Some data
          | None => first_parsed path_exists open_read json_loads rest
          end
      | None => first_parsed path_exists open_read json_loads rest
      end
  end.

(** [s] without the occurrences of the character [c]. *)
Fixpoint remove_char (c : ascii) (s : string) : string :=
  match s with
  | EmptyString => EmptyString
  | String x s' => if Ascii.eqb x c then remove_char c s' else String x (remove_char c s')
  end.

(** The page with both citation checkboxes cleared. *)
Definition without_sources (p : page) : page :=
  {| report_type := report_type p;
     model_option := model_option p;
     research_effort := research_effort p;
     include_sources := false;
     detailed_sources := false;
     st_checkbox := st_checkbox p;
     selected_deal_name := selected_deal_name p;
     selected_deal := selected_deal p;
     Investor := Investor p;
     Investor_portfolio_url := Investor_portfolio_url p |}.

(** The two messages the handler can show instead of a report. *)
Definition no_section_message : string :=
  "Please select at least one section to include in the report".
Definition failure_message : string :=
  "Failed to generate the report. Please try again.".

(** [s] does not start with a white space character. *)
Definition starts_clean (s : string) : bool :=
  match skip_space s with
  | None => true
  | Some _ => false
  end.

(** [s] does not end with white space: nothing is cut from it. *)
Definition ends_clean (s : string) : bool := String.eqb (rstrip s) s.

(** How often a run calls the agent. *)
Definition agent_calls (r : run) : nat := List.length (filter is_invoke (trace r)).

(** Whether a section checkbox of the report type is ticked. *)
Definition some_section_ticked (p : page) : bool :=
  existsb (fun s => st_checkbox p (snd s)) (section_catalog (report_type p)).

(** ** Sample inputs *)

(** [json.dumps] of an empty deal record. *)
Definition sample_dumps : json -> string := fun _ => "{}".

(** A deal summary with every section but the market analysis, citations on. *)
Definition sample_page : page :=
  {| report_type := "Deal Summary Report";
     model_option := "gemini-2.0-flash";
     research_effort := "Standard";
     include_sources := true;
     detailed_sources := false;
     st_checkbox := fun label => negb (String.eqb label "Market Analysis");
     selected_deal_name := "Anstey Horne";
     selected_deal := JObject [];
     Investor := "BGF";
     Investor_portfolio_url := None |}.

(** The same page with every section checkbox cleared. *)
Definition no_section_page (sources : bool) : page :=
  {| report_type := "Deal Summary Report";
     model_option := "gemini-2.0-flash";
     research_effort := "Standard";
     include_sources := sources;
     detailed_sources := false;
     st_checkbox := fun _ => false;
     selected_deal_name := "Anstey Horne";
     selected_deal := JObject [];
     Investor := "BGF";
     Investor_portfolio_url := None |}.

(** A file system where the first candidate exists and is not JSON, the
    second holds an empty JSON object, and nothing else exists. *)
Definition first_broken_exists (path : string) : bool :=
  String.eqb path "src/scraped_companies_final.json"
  || String.eqb path "../src/scraped_companies_final.json".

Definition first_broken_open (path : string) : option string :=
  if String.eqb path "src/scraped_companies_final.json" then Some "<html>"
  else if String.eqb path "../src/scraped_companies_final.json" then Some "{}"
  else None.

(** [json.loads] on the two texts above. *)
Definition sample_loads (text : string) : option json :=
  if String.eqb text "{}" then Some (JObject []) else None.

(** An answer of the agent whose heading comes after five blank lines. *)
Definition late_heading_response : string :=
  nl ++ nl ++ nl ++ nl ++ nl ++ "# Growth Deal".

(** An answer whose heading names a language with a hash sign. *)
Definition hash_response : string :=
  "# BGF Backs F# Tooling Firm" ++ nl ++ nl ++ "Deal overview follows.".

(** An answer whose first line is in capitals. *)
Definition capitals_response : string := "DEAL REPORT 2024" ++ nl ++ "Body text.".

(** The upper-case test on texts of ASCII characters, where a cased
    character is a letter: a capital letter is there and no small one.  On
    such texts it is [str.isupper]; the examples apply it to no other. *)
Fixpoint has_upper (s : string) : bool :=
  match s with
  | EmptyString => false
  | String c s' => is_upper c || has_upper s'
  end.

Fixpoint has_lower (s : string) : bool :=
  match s with
  | EmptyString => false
  | String c s' => is_lower c || has_lower s'
  end.

Definition ascii_isupper (s : string) : bool := has_upper s && negb (has_lower s).

(** The UTF-8 bytes of a text. *)
Definition utf8 (bytes : list nat) : string :=
  string_of_list_ascii (map Ascii.ascii_of_nat bytes).

(** The no-break space U+00A0, the ideographic space U+3000, and a Cyrillic
    word in capitals. *)
Definition no_break_space : string := utf8 [194; 160].
Definition ideographic_space : string := utf8 [227; 128; 128].
Definition cyrillic_capitals : string :=
  utf8 [208; 158; 208; 162; 208; 167; 208; 129; 208; 162].

(** A catalog of two portfolios; the second has no deal. *)
Definition sample_deals : list json :=
  [ JObject [("target_company_name", JString "Anstey Horne");
             ("target_sectors", JArray [JString "Surveying"; JString "Property"])];
    JObject [("target_company_name", JString "3DISC")] ].

Definition sample_portfolios : list json :=
  [ JObject [("Investor", JString "BGF"); ("Deals", JArray sample_deals)];
    JObject [("Investor", JString "Tikehau Capital"); ("Deals", JArray [])] ].

Definition sample_catalog_members : dict json := [("portfolios", JArray sample_portfolios)].

(** A state of the agent with two messages, and one with none. *)
Definition sample_state : dict state_value :=
  [("messages", SMessages ["Searching."; "# BGF Backs Anstey Horne"])].

Definition silent_state : dict state_value := [("messages", SMessages [])].

(** A state whose last message is the answer with the hash sign. *)
Definition hash_state : dict state_value :=
  [("messages", SMessages ["Searching."; hash_response])].

(** An agent that answers a request for four initial queries and five loops,
    and no other. *)
Definition standard_only_agent (req : invoke_request) : agent_state :=
  if Nat.eqb (initial_search_query_count req) 4 && Nat.eqb (max_research_loops req) 5
  then Some sample_state
  else None.

(** A page for a company whose name has no space. *)
Definition compact_page : page :=
  {| report_type := "Target Company Analysis";
     model_option := "gemini-2.0-flash";
     research_effort := "Basic";
     include_sources := false;
     detailed_sources := false;
     st_checkbox := fun _ => true;
     selected_deal_name := "3DISC";
     selected_deal := JObject [];
     Investor := "Galiena Capital";
     Investor_portfolio_url := None |}.

(** * Properties *)

(** ** Strings *)

Lemma append_nil_r (s : string) : s ++ EmptyString = s.
Proof. induction s as [|c s IH]; simpl; [reflexivity | now rewrite IH]. Qed.

Lemma append_assoc (a b c : string) : (a ++ b) ++ c = a ++ (b ++ c).
Proof. induction a as [|x a IH]; simpl; [reflexivity | now rewrite IH]. Qed.

Lemma split_not_nil (sep : ascii) (s : string) : split sep s <> [].
Proof.
  destruct s as [|c s]; simpl; [discriminate|].
  destruct (Ascii.eqb c sep); [discriminate|].
  destruct (split sep s); discriminate.
Qed.

(** Splitting at a separator splits the lines on both sides of it. *)
Lemma split_app_sep (sep : ascii) (a b : string) :
  split sep (a ++ String sep b) = (split sep a ++ split sep b)%list.
Proof.
  induction a as [|c a IH]; simpl.
  - now rewrite Ascii.eqb_refl.
  - destruct (Ascii.eqb c sep); [now rewrite IH|].
    rewrite IH. destruct (split sep a) as [|h t] eqn:E; [|reflexivity].
    now apply split_not_nil in E.
Qed.

Lemma split_free_of (sep : ascii) (s : string) :
  free_of sep s = true -> split sep s = [s].
Proof.
  induction s as [|c s IH]; simpl; [reflexivity|].
  destruct (Ascii.eqb c sep); simpl; [discriminate|].
  intros H. now rewrite (IH H).
Qed.

Lemma fold_left_bullets (sections : list string) (start : string) :
  fold_left (fun prompt section => prompt ++ (nl ++ "- " ++ section)) sections start
  = start ++ bullets_text sections.
Proof.
  revert start. induction sections as [|s l IH]; intros start.
  - simpl. now rewrite append_nil_r.
  - cbn [fold_left]. rewrite IH. rewrite append_assoc. reflexivity.
Qed.

(** The lines of the bullets followed by more text. *)
Lemma lines_bullets (sections : list string) (before rest : string) :
  Forall (fun s => free_of nl_char s = true) sections ->
  lines_of (before ++ bullets_text sections ++ nl ++ rest)
  = (lines_of before ++ map (fun s => ("- " ++ s)%string) sections ++ lines_of rest)%list.
Proof.
  unfold lines_of. intros H. revert before.
  induction H as [|s l Hs Hl IH]; intros before.
  - cbn [bullets_text join map fold_right]. change (EmptyString ++ nl ++ rest) with (String nl_char rest).
    now rewrite split_app_sep.
  - change (bullets_text (s :: l)) with ((nl ++ "- " ++ s) ++ bullets_text l).
    replace (before ++ ((nl ++ "- " ++ s) ++ bullets_text l) ++ nl ++ rest)
      with ((before ++ nl ++ "- " ++ s) ++ bullets_text l ++ nl ++ rest)
      by (now rewrite !append_assoc).
    rewrite IH. change (before ++ nl ++ "- " ++ s) with (before ++ String nl_char ("- " ++ s)).
    rewrite split_app_sep.
    rewrite (split_free_of nl_char ("- " ++ s)) by (simpl; exact Hs).
    now rewrite <- app_assoc.
Qed.

Lemma free_of_app (c : ascii) (a b : string) :
  free_of c (a ++ b) = free_of c a && free_of c b.
Proof.
  induction a as [|x a IH]; cbn [append free_of]; [reflexivity|].
  now rewrite IH, andb_assoc.
Qed.

Lemma free_of_spaces (n : nat) : free_of nl_char (spaces n) = true.
Proof. induction n; [reflexivity | exact IHn]. Qed.

Lemma split_free_prefix (sep : ascii) (a t : string) :
  free_of sep a = true ->
  split sep (a ++ t)
  = match split sep t with
    | h :: r => (a ++ h) :: r
    | [] => [a]
    end.
Proof.
  induction a as [|x a IH]; cbn [append free_of].
  - intros _. destruct (split sep t) as [|h r] eqn:E; [now apply split_not_nil in E | reflexivity].
  - intros H. apply andb_true_iff in H. destruct H as [Hx Ha].
    cbn [split]. apply negb_true_iff in Hx. rewrite Hx, (IH Ha).
    destruct (split sep t); reflexivity.
Qed.

Lemma lines_line (n : nat) (text rest : string) :
  lines_of (line n text ++ rest) = (lines_of (spaces n ++ text) ++ lines_of rest)%list.
Proof.
  unfold line, lines_of. rewrite <- split_app_sep. f_equal.
  now rewrite !append_assoc.
Qed.

(** An indented text has no bullet at the start of a line, unless the text
    itself brings one after a line break. *)
Lemma lines_indented (n : nat) (text : string) :
  Forall (fun l => startswith l "- " = false) (tl (lines_of text)) ->
  Forall (fun l => startswith l "- " = false) (lines_of (spaces (S n) ++ text)).
Proof.
  intros H. unfold lines_of in *. rewrite split_free_prefix by apply free_of_spaces.
  destruct (split nl_char text) as [|h r]; constructor; try reflexivity; try constructor.
  exact H.
Qed.

Lemma lines_one (text : string) :
  free_of nl_char text = true -> tl (lines_of text) = [].
Proof. intros H. unfold lines_of. now rewrite split_free_of. Qed.

Lemma lines_nl (rest : string) :
  lines_of (nl ++ rest) = EmptyString :: lines_of rest.
Proof. unfold lines_of. cbn [append nl split]. now rewrite Ascii.eqb_refl. Qed.

Lemma filter_none {A : Type} (f : A -> bool) (l : list A) :
  Forall (fun x => f x = false) l -> filter f l = [].
Proof. induction 1 as [|x l Hx _ IH]; cbn [filter]; [reflexivity | now rewrite Hx]. Qed.

Lemma filter_all {A : Type} (f : A -> bool) (l : list A) :
  Forall (fun x => f x = true) l -> filter f l = l.
Proof. induction 1 as [|x l Hx _ IH]; cbn [filter]; [reflexivity | now rewrite Hx, IH]. Qed.

(** ** The prompt and its sections *)

Section PromptFacts.

Variable json_dumps_indent2 : json -> string.

(** The prompt is the template, the bullets of the selected sections, and
    the blocks that follow them. *)
Lemma prompt_parts (p : page) :
  prompt json_dumps_indent2 p
  = prompt_template json_dumps_indent2 p
    ++ bullets_text (selected_sections (include_sections p))
    ++ after_sections p.
Proof.
  unfold prompt, after_sections. rewrite fold_left_bullets.
  destruct (String.eqb (report_type p) "Deal Summary Report"), (include_sources p);
    cbn [append]; rewrite ?append_assoc, ?append_nil_r; reflexivity.
Qed.

Lemma after_sections_newline (p : page) :
  exists rest, after_sections p = nl ++ rest.
Proof.
  unfold after_sections.
  destruct (String.eqb (report_type p) "Deal Summary Report").
  - unfold deal_summary_requirements. rewrite append_assoc. eexists. reflexivity.
  - cbn [append]. unfold british_english_mandatory. rewrite append_assoc. eexists. reflexivity.
Qed.

(** Evaluates the comparisons of closed strings in the goal. *)
Ltac decide_eqb :=
  repeat match goal with
         | |- context [String.eqb ?a ?b] =>
             let r := eval vm_compute in (String.eqb a b) in
             change (String.eqb a b) with r
         end;
  cbv iota.

(** The list comprehension yields the ticked sections of the catalog, in the
    catalog's order; the "sources" entry is left out. *)
Lemma selected_sections_catalog (p : page) :
  In (report_type p) report_types ->
  selected_sections (include_sections p)
  = map (fun s => humanize (fst s)) (chosen_sections p).
Proof.
  intros H. unfold chosen_sections, include_sections, section_catalog.
  destruct p as [rt mo re inc det cb name deal inv url];
    cbn [report_type st_checkbox include_sources] in *.
  destruct H as [H|[H|[H|[H|[]]]]]; subst rt; decide_eqb;
    cbv beta iota fix delta [filter snd]; destruct inc;
    repeat match goal with
           | |- context [cb ?l] => destruct (cb l)
           end; vm_compute; reflexivity.
Qed.

Lemma catalog_free_of_newline (rt : string) :
  Forall (fun s => free_of nl_char (humanize (fst s)) = true) (section_catalog rt).
Proof.
  unfold section_catalog.
  repeat match goal with
         | |- context [String.eqb rt ?l] => destruct (String.eqb rt l)
         end; repeat (constructor; [vm_compute; reflexivity|]); constructor.
Qed.

(** Each section of a catalog has its own bullet: the ticked ones occur once
    among the bullets, the others do not occur. *)
Lemma bullet_once (p : page) (s : string * string) :
  In (report_type p) report_types ->
  In s (section_catalog (report_type p)) ->
  count_line (bullet s) (map bullet (chosen_sections p))
  = if st_checkbox p (snd s) then 1 else 0.
Proof.
  intros H Hs. unfold chosen_sections, section_catalog in *.
  destruct p as [rt mo re inc det cb name deal inv url];
    cbn [report_type st_checkbox include_sources] in *.
  destruct H as [H|[H|[H|[H|[]]]]]; subst rt; revert Hs; decide_eqb; intros Hs;
    cbv beta iota fix delta [filter snd];
    repeat (destruct Hs as [Hs|Hs]; [subst s; cbn [snd]|]); try contradiction;
    repeat match goal with
           | |- context [cb ?l] => destruct (cb l)
           end; vm_compute; reflexivity.
Qed.

(** No line after the bullets starts like one of them: the blocks that
    follow are indented. *)
Lemma after_sections_indented (p : page) :
  Forall (fun l => startswith l "- " = false) (tl (lines_of (after_sections p))).
Proof.
  unfold after_sections.
  destruct (String.eqb (report_type p) "Deal Summary Report"), (include_sources p);
    try destruct (detailed_sources p); vm_compute; repeat constructor.
Qed.

Lemma report_type_free_of_newline (rt : string) :
  In rt report_types ->
  free_of nl_char rt = true /\ free_of nl_char (lower rt) = true.
Proof.
  intros [H|[H|[H|[H|[]]]]]; subst rt; split; vm_compute; reflexivity.
Qed.

Lemma template_lines_indented (p : page) :
  In (report_type p) report_types ->
  free_of nl_char (selected_deal_name p) = true ->
  free_of nl_char (Investor p) = true ->
  match Investor_portfolio_url p with
  | Some url => free_of nl_char url = true
  | None => True
  end ->
  Forall (fun l => startswith l "- " = false)
         (tl (lines_of (json_dumps_indent2 (selected_deal p)))) ->
  Forall (fun l => startswith l "- " = false)
         (lines_of (prompt_template json_dumps_indent2 p)).
Proof.
  intros Hrt Hname Hinv Hurl Hdumps.
  destruct (report_type_free_of_newline _ Hrt) as [Frt Flow].
  unfold prompt_template.
  change (nl ++ ?x) with (String nl_char x).
  unfold lines_of at 1. cbn [split]. rewrite Ascii.eqb_refl. fold lines_of.
  constructor; [reflexivity|].
  rewrite !lines_line.
  repeat (apply Forall_app; split);
    try (apply (lines_indented 19));
    try exact Hdumps;
    try (rewrite lines_one; [constructor|]);
    rewrite ?free_of_app, ?Frt, ?Flow, ?Hname, ?Hinv; try reflexivity.
  destruct (Investor_portfolio_url p); [rewrite Hurl|]; reflexivity.
Qed.

(** On clean deal data the bullet lines of the prompt are exactly the bullets
    of the ticked sections. *)
Lemma bullet_lines_of_prompt (p : page) :
  In (report_type p) report_types ->
  free_of nl_char (selected_deal_name p) = true ->
  free_of nl_char (Investor p) = true ->
  match Investor_portfolio_url p with
  | Some url => free_of nl_char url = true
  | None => True
  end ->
  Forall (fun l => startswith l "- " = false)
         (tl (lines_of (json_dumps_indent2 (selected_deal p)))) ->
  filter (fun l => startswith l "- ") (lines_of (prompt json_dumps_indent2 p))
  = map bullet (chosen_sections p).
Proof.
  intros Hrt Hname Hinv Hurl Hdumps.
  rewrite prompt_parts, (selected_sections_catalog p Hrt).
  pose proof (after_sections_indented p) as A.
  destruct (after_sections_newline p) as [rest E]. rewrite E in *.
  rewrite lines_nl in A. cbn [tl] in A.
  rewrite lines_bullets.
  - rewrite !filter_app, map_map.
    rewrite (filter_none _ _ (template_lines_indented p Hrt Hname Hinv Hurl Hdumps)).
    rewrite (filter_none _ _ A), app_nil_r. cbn [app].
    apply filter_all, Forall_map, Forall_forall. intros s _.
    unfold bullet, startswith. cbn [append String.prefix].
    destruct (ascii_dec "-" "-") as [_|N]; [|now contradiction N].
    destruct (ascii_dec " " " ") as [_|N]; [|now contradiction N].
    destruct (humanize (fst s)); reflexivity.
  - apply Forall_map. unfold chosen_sections.
    pose proof (catalog_free_of_newline (report_type p)) as F.
    rewrite Forall_forall in *. intros s Hs. apply F.
    apply filter_In in Hs. tauto.
Qed.
(** C1. For each of the four report types and every state of the section
    checkboxes, the lines of the prompt are the lines of the template, then one
    bullet line for each ticked section of that type's catalog, in the
    catalog's order and with the key made readable, then the lines of the
    blocks that follow.  A ticked section has exactly one bullet, an unticked
    one has none, the "sources" entry gives no bullet, and no later line
    starts like a bullet.  When the deal data brings no line break of its own
    into the template, the lines of the prompt that start with "- " are
    exactly these bullets. *)
Theorem section_bullets_follow_catalog (p : page) :
  In (report_type p) report_types ->
  lines_of (prompt json_dumps_indent2 p)
  = (lines_of (prompt_template json_dumps_indent2 p)
     ++ map bullet (chosen_sections p)
     ++ tl (lines_of (after_sections p)))%list
  /\ selected_sections (include_sections p)
     = map (fun s => humanize (fst s)) (chosen_sections p)
  /\ (forall s, In s (section_catalog (report_type p)) ->
        count_line (bullet s) (map bullet (chosen_sections p))
        = if st_checkbox p (snd s) then 1 else 0)
  /\ Forall (fun l => startswith l "- " = false) (tl (lines_of (after_sections p)))
  /\ (free_of nl_char (selected_deal_name p) = true ->
      free_of nl_char (Investor p) = true ->
      match Investor_portfolio_url p with
      | Some url => free_of nl_char url = true
      | None => True
      end ->
      Forall (fun l => startswith l "- " = false)
             (tl (lines_of (json_dumps_indent2 (selected_deal p)))) ->
      filter (fun l => startswith l "- ") (lines_of (prompt json_dumps_indent2 p))
      = map bullet (chosen_sections p)).
Proof.
  intros H. split; [|split; [|split; [|split]]]; [| | | |exact (bullet_lines_of_prompt p H)].
  - rewrite prompt_parts, (selected_sections_catalog p H).
    destruct (after_sections_newline p) as [rest ->].
    rewrite lines_bullets.
    + rewrite map_map, lines_nl. reflexivity.
    + apply Forall_map. unfold chosen_sections.
      pose proof (catalog_free_of_newline (report_type p)) as F.
      rewrite Forall_forall in *. intros s Hs. apply F.
      apply filter_In in Hs. tauto.
  - exact (selected_sections_catalog p H).
  - intros s. exact (bullet_once p s H).
  - exact (after_sections_indented p).
Qed.

End PromptFacts.

Lemma section_bullets_follow_catalog_witness :
  In (report_type sample_page) report_types
  /\ filter (fun l => startswith l "- ") (lines_of (prompt sample_dumps sample_page))
     = [ "- Deal Overview"; "- Transaction Details"; "- Competitors" ].
Proof.
  assert (H : In (report_type sample_page) report_types) by (left; reflexivity).
  split; [exact H|].
  exact (proj2 (proj2 (proj2 (proj2
           (section_bullets_follow_catalog sample_dumps sample_page H))))
           eq_refl eq_refl I (Forall_nil _)).
Defined.

(** ** The guard on the selection *)

Lemma any_dict_set_true (k : string) (d : dict bool) :
  any (dict_values (dict_set k true d)) = true.
Proof.
  induction d as [|[k' v'] d IH]; cbn [dict_set]; [reflexivity|].
  destruct (String.eqb k' k); [reflexivity|].
  unfold any, dict_values in *. cbn [map existsb snd]. rewrite IH. apply orb_true_r.
Qed.

(** With citations on, the guard sees the "sources" entry and lets the
    request through, whatever the section checkboxes say. *)
Lemma sources_pass_guard (p : page) :
  include_sources p = true -> any (dict_values (include_sections p)) = true.
Proof.
  intros H. unfold include_sections. rewrite H. apply any_dict_set_true.
Qed.

(** With citations off and no section ticked, the guard holds. *)
Lemma nothing_ticked_guard (p : page) :
  include_sources p = false -> (forall label, st_checkbox p label = false) ->
  any (dict_values (include_sections p)) = false.
Proof.
  intros H Hcb. unfold include_sections. rewrite H, !Hcb.
  repeat match goal with
         | |- context [String.eqb (report_type p) ?l] =>
             destruct (String.eqb (report_type p) l)
         end; reflexivity.
Qed.

Lemma selected_sections_sources (v : bool) (d : dict bool) :
  selected_sections (dict_set "sources" v d) = selected_sections d.
Proof.
  unfold selected_sections. f_equal.
  induction d as [|[k' v'] d IH]; cbn [dict_set filter fst snd].
  - rewrite String.eqb_refl, andb_false_r. reflexivity.
  - destruct (String.eqb k' "sources") eqn:E; cbn [filter fst snd].
    + rewrite String.eqb_refl, ?E, !andb_false_r. reflexivity.
    + rewrite ?E, IH. reflexivity.
Qed.

Lemma selected_sections_without_sources (p : page) :
  selected_sections (include_sections p)
  = selected_sections (include_sections (without_sources p)).
Proof.
  unfold include_sections. cbn [without_sources include_sources report_type st_checkbox].
  destruct (include_sources p); [|reflexivity].
  apply selected_sections_sources.
Qed.

(** ** The handler of the button *)

Section GenerateFacts.

Variable str_isupper : string -> bool.
Variable json_dumps_indent2 : json -> string.
Variable graph_invoke : invoke_request -> agent_state.

Let prompt_of := prompt json_dumps_indent2.
Let request_of := request json_dumps_indent2.
Let display := display_result str_isupper.
Let generate (p : page) : run :=
  on_generate str_isupper json_dumps_indent2 graph_invoke (Some p).

Lemma display_result_no_invoke (p : page) (state : agent_state) :
  existsb is_invoke (trace (display p state)) = false.
Proof.
  unfold display, display_result.
  destruct (truthy state && has_messages state); [|reflexivity].
  destruct (last_content state); reflexivity.
Qed.

(** Past the guard, the agent is applied to the request built from the page,
    and what is shown after the call is the display of the state that this
    application returned. *)
Lemma generate_run (p : page) :
  any (dict_values (include_sections p)) = true ->
  generate p
  = {| trace :=
         st_spinner ("Generating " ++ report_type p ++ " for " ++ selected_deal_name p ++ "...")
         :: graph_invoke_call (request_of p)
         :: trace (display p (graph_invoke (request_of p)));
       raised := raised (display p (graph_invoke (request_of p))) |}.
Proof.
  intros H. unfold generate, on_generate. rewrite H. reflexivity.
Qed.

(** The agent is called at most with the request built from the page. *)
Lemma invoke_is_request (p : page) (req : invoke_request) :
  In (graph_invoke_call req) (trace (generate p)) -> req = request_of p.
Proof.
  unfold generate, on_generate.
  destruct (negb (any (dict_values (include_sections p)))); cbn [trace In].
  - intros [H|[]]; discriminate.
  - intros [H|[H|H]]; [discriminate | now inversion H |].
    pose proof (display_result_no_invoke p (graph_invoke (request json_dumps_indent2 p))) as N.
    assert (E : existsb is_invoke
                  (trace (display p (graph_invoke (request json_dumps_indent2 p)))) = true)
      by (apply existsb_exists; exists (graph_invoke_call req); split; [exact H | reflexivity]).
    congruence.
Qed.

(** The two numbers of the request are those of the research depth. *)
Lemma request_parameters (p : page) :
  (initial_search_query_count (request_of p), max_research_loops (request_of p))
  = research_parameters (research_effort p).
Proof.
  unfold request_of, request, initial_queries, max_loops.
  cbn [initial_search_query_count max_research_loops].
  destruct (research_parameters (research_effort p)); reflexivity.
Qed.

(** With citations off and every section checkbox cleared, the request is
    refused on the page and the agent is not called. *)
Lemma empty_selection_rejected (p : page) :
  include_sources p = false -> (forall label, st_checkbox p label = false) ->
  generate p = {| trace := [st_error no_section_message]; raised := None |}
  /\ calls_agent (generate p) = false.
Proof.
  intros H Hcb. unfold generate, calls_agent, on_generate.
  rewrite (nothing_ticked_guard p H Hcb). split; reflexivity.
Qed.

(** C2, evaluated where it fails.  With "Include Source Citations" ticked (its
    default) and every section checkbox cleared, no section is selected, yet
    the guard is passed and the agent is called, with a prompt that lists no
    section. *)
Theorem only_sources_reaches_agent :
  selected_sections (include_sections (no_section_page true)) = []
  /\ any (dict_values (include_sections (no_section_page true))) = true
  /\ calls_agent (generate (no_section_page true)) = true
  /\ In (graph_invoke_call (request_of (no_section_page true)))
        (trace (generate (no_section_page true))).
Proof.
  repeat split; try reflexivity.
  unfold generate, on_generate. right. left. reflexivity.
Qed.

(** C6. The research depth gives the pair of the number of initial queries
    and the number of loops: Basic (2, 2), Standard (4, 5), Comprehensive
    (6, 10).  These two numbers are the [initial_search_query_count] and
    [max_research_loops] of the request built from the page; past the guard
    the agent is applied to that request, once, and the state it returns on
    that request is the one displayed; and no call of the agent in a run
    carries other numbers. *)
Theorem research_depth_parameters :
  research_parameters "Basic" = (2, 2)
  /\ research_parameters "Standard" = (4, 5)
  /\ research_parameters "Comprehensive" = (6, 10)
  /\ (forall p : page,
        (initial_search_query_count (request_of p), max_research_loops (request_of p))
        = research_parameters (research_effort p))
  /\ (forall p : page,
        any (dict_values (include_sections p)) = true ->
        generate p
        = {| trace :=
               st_spinner ("Generating " ++ report_type p ++ " for "
                           ++ selected_deal_name p ++ "...")
               :: graph_invoke_call (request_of p)
               :: trace (display p (graph_invoke (request_of p)));
             raised := raised (display p (graph_invoke (request_of p))) |})
  /\ forall (p : page) (req : invoke_request),
       In (graph_invoke_call req) (trace (generate p)) ->
       (initial_search_query_count req, max_research_loops req)
       = research_parameters (research_effort p).
Proof.
  split; [reflexivity|]. split; [reflexivity|]. split; [reflexivity|].
  split; [exact request_parameters|]. split; [exact generate_run|].
  intros p req H. rewrite (invoke_is_request p req H). apply request_parameters.
Qed.

(** C8. When the agent returns nothing, an empty state, or a state without a
    "messages" entry, the only thing shown after the call is the failure
    message: no title is extracted, nothing is rendered and no download is
    offered. *)
Theorem failed_invocation_reported (p : page) (state : agent_state) :
  truthy state = false \/ has_messages state = false ->
  display p state = {| trace := [st_error failure_message]; raised := None |}
  /\ (graph_invoke (request_of p) = state ->
      any (dict_values (include_sections p)) = true ->
      trace (generate p)
      = [ st_spinner ("Generating " ++ report_type p ++ " for " ++ selected_deal_name p ++ "...");
          graph_invoke_call (request_of p);
          st_error failure_message ]
      /\ raised (generate p) = None
      /\ existsb is_rendering (trace (generate p)) = false).
Proof.
  intros H.
  assert (D : display p state
              = {| trace := [st_error failure_message]; raised := None |}).
  { unfold display, display_result.
    destruct H as [H|H]; rewrite H, ?andb_false_r; reflexivity. }
  split; [exact D|].
  intros Hs Hany. rewrite (generate_run p Hany), Hs, D. cbn. repeat split.
Qed.

End GenerateFacts.

(** The agent of the example answers a request for four initial queries and
    five loops, and no other: the report is shown, so these are the numbers
    the agent received. *)
Lemma research_depth_parameters_witness :
  any (dict_values (include_sections sample_page)) = true
  /\ In (graph_invoke_call (request sample_dumps sample_page))
        (trace (on_generate ascii_isupper sample_dumps standard_only_agent (Some sample_page)))
  /\ (initial_search_query_count (request sample_dumps sample_page),
      max_research_loops (request sample_dumps sample_page)) = (4, 5)
  /\ trace (on_generate ascii_isupper sample_dumps standard_only_agent (Some sample_page))
     = st_spinner "Generating Deal Summary Report for Anstey Horne..."
       :: graph_invoke_call (request sample_dumps sample_page)
       :: trace (display_result ascii_isupper sample_page (Some sample_state)).
Proof.
  assert (G : any (dict_values (include_sections sample_page)) = true) by reflexivity.
  assert (H : In (graph_invoke_call (request sample_dumps sample_page))
                 (trace (on_generate ascii_isupper sample_dumps standard_only_agent
                           (Some sample_page))))
    by (right; left; reflexivity).
  pose proof (research_depth_parameters ascii_isupper sample_dumps standard_only_agent)
    as (_ & _ & _ & _ & R & P).
  split; [exact G|]. split; [exact H|].
  split; [exact (P sample_page _ H)|].
  exact (f_equal trace (R sample_page G)).
Defined.

Lemma failed_invocation_reported_witness :
  (truthy None = false \/ has_messages None = false)
  /\ display_result ascii_isupper sample_page None
     = {| trace := [st_error failure_message]; raised := None |}.
Proof.
  assert (H : truthy None = false \/ has_messages None = false) by (left; reflexivity).
  split; [exact H|].
  exact (proj1 (failed_invocation_reported ascii_isupper sample_dumps (fun _ => None)
                  sample_page None H)).
Defined.

(** ** The language directive and the sourcing instruction *)

Section DirectiveFacts.

Variable json_dumps_indent2 : json -> string.

(** What comes before the language directive, and what after. *)
Lemma prompt_around_directive (p : page) :
  prompt json_dumps_indent2 p
  = (prompt_template json_dumps_indent2 p
     ++ bullets_text (selected_sections (include_sections p))
     ++ (if String.eqb (report_type p) "Deal Summary Report"
         then deal_summary_requirements else EmptyString))
    ++ british_english_mandatory ++ british_english_highest_priority
    ++ (if include_sources p then sources_instructions (detailed_sources p)
        else EmptyString).
Proof.
  rewrite prompt_parts. unfold after_sections. now rewrite !append_assoc.
Qed.

(** C5. Whatever the report type, the sections and the citation settings, the
    prompt holds the two British English blocks one after the other: first the
    "mandatory" one, then the "highest priority" one.  Both are constant texts;
    only the sourcing instruction, if any, comes after them. *)
Theorem british_english_directive (p : page) :
  (exists before,
     prompt json_dumps_indent2 p
     = before ++ british_english_mandatory ++ british_english_highest_priority
       ++ (if include_sources p then sources_instructions (detailed_sources p)
           else EmptyString))
  /\ contains "MANDATORY LANGUAGE STYLE: All reports MUST be written in British English"
       british_english_mandatory = true
  /\ contains "HIGHEST PRIORITY REQUIREMENT: ALL OUTPUT MUST BE IN BRITISH ENGLISH ONLY."
       british_english_highest_priority = true.
Proof.
  split; [|split]; try (vm_compute; reflexivity).
  eexists. apply prompt_around_directive.
Qed.

(** The second block restates the first in other words. *)
Remark directive_blocks_differ :
  british_english_mandatory <> british_english_highest_priority.
Proof.
  intros E. apply (f_equal String.length) in E. vm_compute in E. discriminate.
Qed.

Lemma prompt_without_sources (p : page) :
  prompt json_dumps_indent2 p
  = prompt json_dumps_indent2 (without_sources p)
    ++ (if include_sources p then sources_instructions (detailed_sources p)
        else EmptyString).
Proof.
  rewrite !prompt_parts, selected_sections_without_sources.
  unfold after_sections. cbn [without_sources include_sources report_type].
  change (prompt_template json_dumps_indent2 (without_sources p))
    with (prompt_template json_dumps_indent2 p).
  rewrite !append_assoc. reflexivity.
Qed.

(** C9. The sourcing instruction is the only thing the citation checkboxes
    change.  With citations off nothing follows the language directive.  With
    citations on, the detailed form asks for publication date, author and
    reliability assessment of each source; the basic form asks for the list of
    sources with their URLs in a final Sources section and does not mention
    date, author or reliability; both ask for the numbered Sources section. *)
Theorem sourcing_instruction (p : page) :
  prompt json_dumps_indent2 p
  = prompt json_dumps_indent2 (without_sources p)
    ++ (if include_sources p then sources_instructions (detailed_sources p)
        else EmptyString)
  /\ (exists before,
        prompt json_dumps_indent2 (without_sources p)
        = before ++ british_english_highest_priority)
  /\ contains "such as publication date, author, and reliability assessment."
       (sources_instructions true) = true
  /\ contains "List all sources with their URLs at the end of the report in a dedicated Sources section."
       (sources_instructions false) = true
  /\ (forall detailed,
        contains "section at the end with numbered references and clickable links to all sources used."
          (sources_instructions detailed) = true)
  /\ contains "publication date" (sources_instructions false) = false
  /\ contains "author" (sources_instructions false) = false
  /\ contains "reliability" (sources_instructions false) = false.
Proof.
  split; [exact (prompt_without_sources p)|].
  split.
  - pose proof (prompt_around_directive (without_sources p)) as E.
    cbn [without_sources include_sources] in E. rewrite append_nil_r in E.
    eexists. rewrite E, <- append_assoc. reflexivity.
  - repeat split; try (vm_compute; reflexivity).
    intros [|]; vm_compute; reflexivity.
Qed.

End DirectiveFacts.

(** ** The loader *)

Section LoaderFacts.

Variable path_exists : string -> bool.
Variable open_read : string -> option string.
Variable json_loads : string -> option json.
Variable script_dir : string.
Variable exn_text : py_exn -> string.
Variable getcwd : string.

Let load_file := json_load_file open_read json_loads.
Let loaded := load_deal_data path_exists open_read json_loads script_dir exn_text getcwd.

(** The loop stops at the first path that exists. *)
Lemma try_paths_find (paths : list string) :
  try_paths path_exists open_read json_loads paths
  = option_map load_file (find path_exists paths).
Proof.
  induction paths as [|path rest IH]; cbn [try_paths find]; [reflexivity|].
  destruct (path_exists path); [reflexivity | exact IH].
Qed.

Lemma load_deal_data_try_located :
  load_deal_data_try path_exists open_read json_loads script_dir
  = load_file (located_path path_exists script_dir).
Proof.
  unfold load_deal_data_try, located_path. rewrite try_paths_find.
  destruct (find path_exists (possible_paths script_dir)); reflexivity.
Qed.

Lemma load_deal_data_located :
  snd loaded = Return (loaded_or_empty (load_file (located_path path_exists script_dir))).
Proof.
  unfold loaded, load_deal_data. rewrite load_deal_data_try_located.
  fold load_file. destruct (load_file (located_path path_exists script_dir)); reflexivity.
Qed.

(** C3, as the loader does it.  The four candidates are looked up in their
    fixed order, then the absolute path; only the first one that exists is
    read.  The loader returns its parsed content, or the empty catalog when
    that file cannot be read or is not JSON: no later candidate is tried. *)
Theorem loader_reads_first_existing :
  possible_paths script_dir
  = [ "src/scraped_companies_final.json";
      "../src/scraped_companies_final.json";
      "backend/src/scraped_companies_final.json";
      os_path_join script_dir "scraped_companies_final.json" ]
  /\ snd loaded
     = Return (loaded_or_empty
                 (load_file
                    match find path_exists (possible_paths script_dir) with
                    | Some path => path
                    | None => absolute_path
                    end)).
Proof.
  split; [reflexivity | exact load_deal_data_located].
Qed.

(** C4. The loader always returns a catalog and never raises.  It returns the
    empty catalog when none of the candidates exists and the absolute path
    cannot be opened, and when the file it reads is not valid JSON. *)
Theorem loader_falls_back_to_empty_catalog :
  (exists data, snd loaded = Return data)
  /\ ((forall path, In path (possible_paths script_dir) -> path_exists path = false) ->
      open_read absolute_path = None ->
      snd loaded = Return empty_catalog)
  /\ (forall text,
        open_read (located_path path_exists script_dir) = Some text ->
        json_loads text = None ->
        snd loaded = Return empty_catalog).
Proof.
  rewrite load_deal_data_located. split; [eexists; reflexivity|]. split.
  - intros Hnone Hopen.
    assert (E : find path_exists (possible_paths script_dir) = None).
    { destruct (find path_exists (possible_paths script_dir)) as [path|] eqn:F; [|reflexivity].
      apply find_some in F. destruct F as [Hin Hex].
      rewrite (Hnone path Hin) in Hex. discriminate. }
    unfold located_path. rewrite E. unfold load_file, json_load_file.
    rewrite Hopen. reflexivity.
  - intros text Hopen Hjson. unfold load_file, json_load_file.
    rewrite Hopen, Hjson. reflexivity.
Qed.

End LoaderFacts.

(** C3 as the specification words it fails: the second candidate is the first
    that parses, yet the loader stops at the first one, which exists and is not
    JSON, and returns the empty catalog. *)
Lemma first_parsed_not_returned :
  first_parsed first_broken_exists first_broken_open sample_loads
    (candidate_paths "backend/src") = Some (JObject [])
  /\ snd (load_deal_data first_broken_exists first_broken_open sample_loads
            "backend/src" (fun _ => "error") "/app")
     = Return empty_catalog
  /\ empty_catalog <> JObject [].
Proof.
  repeat split; try reflexivity. discriminate.
Qed.

(** Nothing exists and nothing can be opened. *)
Lemma loader_falls_back_to_empty_catalog_witness :
  (forall path, In path (possible_paths "backend/src") -> (fun _ : string => false) path = false)
  /\ (fun _ : string => @None string) absolute_path = None
  /\ snd (load_deal_data (fun _ => false) (fun _ => None) sample_loads
            "backend/src" (fun _ => "error") "/app")
     = Return empty_catalog.
Proof.
  assert (H1 : forall path, In path (possible_paths "backend/src") ->
                            (fun _ : string => false) path = false) by reflexivity.
  assert (H2 : (fun _ : string => @None string) absolute_path = None) by reflexivity.
  split; [exact H1|]. split; [exact H2|].
  exact (proj1 (proj2 (loader_falls_back_to_empty_catalog
                         (fun _ => false) (fun _ => None) sample_loads
                         "backend/src" (fun _ => "error") "/app")) H1 H2).
Defined.

(** ** The title *)

(** Replacing the hash sign by nothing removes every hash sign. *)
Lemma replace_hash (s : string) :
  replace "#" EmptyString s = remove_char hash_char s.
Proof.
  unfold replace. induction s as [|c s IH]; [reflexivity|].
  cbn [replace_from remove_char String.length Nat.sub].
  change (String.prefix "#" (String c s))
    with (if ascii_dec "#" c then String.prefix EmptyString s else false).
  destruct (ascii_dec "#" c) as [E|N].
  - subst c. change (Ascii.eqb "#" hash_char) with true. cbn iota.
    destruct s; cbn [String.prefix append]; exact IH.
  - destruct (Ascii.eqb c hash_char) eqn:E.
    + apply Ascii.eqb_eq in E. subst c. now contradiction N.
    + now rewrite IH.
Qed.

Lemma remove_char_free (c : ascii) (s : string) :
  free_of c (remove_char c s) = true.
Proof.
  induction s as [|x s IH]; cbn [remove_char]; [reflexivity|].
  destruct (Ascii.eqb x c) eqn:E; [exact IH|].
  cbn [free_of]. now rewrite E, IH.
Qed.

(** [lstrip] skips one white space character after the other. *)
Lemma lstrip_unfold (s : string) :
  lstrip s = match skip_space s with
             | Some rest => lstrip rest
             | None => s
             end.
Proof.
  destruct s as [|c [|d [|e s3]]]; cbn [lstrip skip_space]; try reflexivity.
  - destruct (is_space c); reflexivity.
  - destruct (is_space c); [reflexivity|]. destruct (is_space2 c d); reflexivity.
  - destruct (is_space c); [reflexivity|]. destruct (is_space2 c d); [reflexivity|].
    destruct (is_space3 c d e); reflexivity.
Qed.

(** What is left after a white space character is an end of the text. *)
Lemma skip_space_suffix (s rest : string) :
  skip_space s = Some rest -> exists head, s = head ++ rest /\ head <> EmptyString.
Proof.
  destruct s as [|c [|d [|e s3]]]; cbn [skip_space]; try discriminate.
  - destruct (is_space c); [|discriminate]. intros H; injection H as <-.
    exists (String c EmptyString). split; [reflexivity | discriminate].
  - destruct (is_space c).
    + intros H; injection H as <-.
      exists (String c EmptyString). split; [reflexivity | discriminate].
    + destruct (is_space2 c d); [|discriminate]. intros H; injection H as <-.
      exists (String c (String d EmptyString)). split; [reflexivity | discriminate].
  - destruct (is_space c).
    + intros H; injection H as <-.
      exists (String c EmptyString). split; [reflexivity | discriminate].
    + destruct (is_space2 c d).
      * intros H; injection H as <-.
        exists (String c (String d EmptyString)). split; [reflexivity | discriminate].
      * destruct (is_space3 c d e); [|discriminate]. intros H; injection H as <-.
        exists (String c (String d (String e EmptyString))).
        split; [reflexivity | discriminate].
Qed.

Lemma length_app (a b : string) :
  String.length (a ++ b) = String.length a + String.length b.
Proof. induction a as [|c a IH]; cbn; [reflexivity | now rewrite IH]. Qed.

Lemma skip_space_shorter (s rest : string) :
  skip_space s = Some rest -> String.length rest < String.length s.
Proof.
  intros H. destruct (skip_space_suffix s rest H) as [head [-> Hne]].
  rewrite length_app. destruct head; [contradiction | cbn; lia].
Qed.

(** Induction on the length of a text. *)
Lemma string_length_ind (P : string -> Prop) :
  (forall s, (forall t, String.length t < String.length s -> P t) -> P s) ->
  forall s, P s.
Proof.
  intros H.
  assert (G : forall n s, String.length s < n -> P s).
  { induction n as [|n IH]; intros s Hs; [lia|].
    apply H. intros t Ht. apply IH. lia. }
  intros s. exact (G (S (String.length s)) s (Nat.lt_succ_diag_r _)).
Qed.

Lemma lstrip_free (c : ascii) (s : string) :
  free_of c s = true -> free_of c (lstrip s) = true.
Proof.
  induction s as [s IH] using string_length_ind. intros H.
  rewrite lstrip_unfold. destruct (skip_space s) as [rest|] eqn:E; [|exact H].
  apply IH; [exact (skip_space_shorter s rest E)|].
  destruct (skip_space_suffix s rest E) as [head [-> _]].
  rewrite free_of_app in H. apply andb_true_iff in H. tauto.
Qed.

Lemma rstrip_free (c : ascii) (s : string) :
  free_of c s = true -> free_of c (rstrip s) = true.
Proof.
  induction s as [|x s IH]; [trivial|].
  intros H. cbn [rstrip]. destruct (all_space (String x s)); [reflexivity|].
  cbn [free_of] in *. apply andb_true_iff in H. destruct H as [Hx Hs].
  now rewrite Hx, IH.
Qed.

Lemma clean_title_free_of_hash (line : string) :
  free_of hash_char (clean_title line) = true.
Proof.
  unfold clean_title, strip. rewrite replace_hash.
  apply rstrip_free, lstrip_free, remove_char_free.
Qed.

Lemma free_of_hash_contains (s : string) :
  free_of hash_char s = true -> contains "#" s = false.
Proof.
  induction s as [|c s IH]; [reflexivity|].
  cbn [free_of]. intros F. apply andb_true_iff in F. destruct F as [Fc Fs].
  cbn [contains]. rewrite (IH Fs), orb_false_r.
  change (String.prefix "#" (String c s))
    with (if ascii_dec "#" c then String.prefix EmptyString s else false).
  destruct (ascii_dec "#" c) as [X|X]; [|reflexivity].
  subst c. discriminate Fc.
Qed.

Section TitleFacts.

Variable str_isupper : string -> bool.

(** The loop with its [break] returns the cleaned first line that looks like
    a title, and the initial value when there is none. *)
Lemma title_loop_find (investor : string) (lines : list string) (title : string) :
  title_loop str_isupper investor lines title
  = match find (looks_like_title str_isupper investor) lines with
    | Some line => clean_title line
    | None => title
    end.
Proof.
  induction lines as [|line rest IH]; cbn [title_loop find]; [reflexivity|].
  destruct (looks_like_title str_isupper investor line); [reflexivity | exact IH].
Qed.

(** What is shown for a state whose messages end with [response]. *)
Lemma display_of_last_message (p : page) (d : dict state_value)
    (earlier : list string) (response : string) :
  dict_get "messages" d = Some (SMessages (earlier ++ [response])%list) ->
  display_result str_isupper p (Some d)
  = {| trace :=
         [ st_subheader (extract_title str_isupper p response);
           st_markdown "---";
           st_markdown response;
           st_download_button "Download Report"
             (report_text (extract_title str_isupper p response) response)
             (file_name p) "text/markdown" ];
       raised := None |}.
Proof.
  intros H. unfold display_result, truthy, has_messages, dict_has, last_content.
  rewrite H. destruct d as [|kv d]; [discriminate|]. cbn [andb].
  rewrite rev_app_distr. reflexivity.
Qed.

(** C7, as the handler does it.  The answer is first stripped of the white
    space around it; the first five lines of what is left are examined, and
    the first of them that starts with "# ", is upper case, or contains the
    investor's name gives the title, once its hash signs are removed and it is
    stripped.  When none of these lines qualifies the title is the name of the
    target company. *)
Theorem title_from_first_five_lines (p : page) (response : string) :
  extract_title str_isupper p response
  = match find (fun line =>
                  startswith line "# " || str_isupper line || contains (Investor p) line)
               (firstn 5 (lines_of (strip response))) with
    | Some line => strip (replace "#" EmptyString (replace "# " EmptyString line))
    | None => selected_deal_name p
    end.
Proof.
  unfold extract_title. rewrite title_loop_find. reflexivity.
Qed.

(** C10. When a line is taken as the title, the title is that line with the
    occurrences of "# " removed, then every remaining hash sign removed, then
    stripped: no hash sign is left in it, wherever it stood in the line.  This
    title is the one shown above the report and the one written as the heading
    of the text offered for download. *)
Theorem title_has_no_hash (p : page) (response line : string) :
  find (looks_like_title str_isupper (Investor p))
       (firstn 5 (lines_of (strip response))) = Some line ->
  extract_title str_isupper p response
  = strip (remove_char hash_char (replace "# " EmptyString line))
  /\ free_of hash_char (extract_title str_isupper p response) = true
  /\ contains "#" (extract_title str_isupper p response) = false
  /\ forall (d : dict state_value) (earlier : list string),
       dict_get "messages" d = Some (SMessages (earlier ++ [response])%list) ->
       display_result str_isupper p (Some d)
       = {| trace :=
              [ st_subheader (strip (remove_char hash_char (replace "# " EmptyString line)));
                st_markdown "---";
                st_markdown response;
                st_download_button "Download Report"
                  ("# " ++ strip (remove_char hash_char (replace "# " EmptyString line))
                   ++ nl ++ nl ++ response)
                  (file_name p) "text/markdown" ];
            raised := None |}.
Proof.
  intros H.
  assert (E : extract_title str_isupper p response = clean_title line)
    by (unfold extract_title; rewrite title_loop_find; unfold lines_of in H;
        rewrite H; reflexivity).
  assert (C : clean_title line = strip (remove_char hash_char (replace "# " EmptyString line)))
    by (unfold clean_title; now rewrite replace_hash).
  split; [now rewrite E|].
  split; [rewrite E; apply clean_title_free_of_hash|].
  split; [rewrite E; apply free_of_hash_contains, clean_title_free_of_hash|].
  intros d earlier Hd. rewrite (display_of_last_message p d earlier response Hd), E, C.
  reflexivity.
Qed.

End TitleFacts.

(** C7 as the specification words it fails: none of the first five lines of
    this answer qualifies, and the title is not the name of the company. *)
Lemma title_past_fifth_line :
  firstn 5 (lines_of late_heading_response)
  = [EmptyString; EmptyString; EmptyString; EmptyString; EmptyString]
  /\ Forall (fun line => looks_like_title ascii_isupper (Investor sample_page) line = false)
            (firstn 5 (lines_of late_heading_response))
  /\ extract_title ascii_isupper sample_page late_heading_response = "Growth Deal"
  /\ extract_title ascii_isupper sample_page late_heading_response
     <> selected_deal_name sample_page.
Proof.
  split; [reflexivity|].
  split; [vm_compute; repeat constructor|].
  split; [reflexivity | discriminate].
Qed.

Lemma title_has_no_hash_witness :
  find (looks_like_title ascii_isupper (Investor sample_page))
       (firstn 5 (lines_of (strip hash_response)))
  = Some "# BGF Backs F# Tooling Firm"
  /\ extract_title ascii_isupper sample_page hash_response = "BGF Backs FTooling Firm"
  /\ display_result ascii_isupper sample_page (Some hash_state)
     = {| trace :=
            [ st_subheader "BGF Backs FTooling Firm";
              st_markdown "---";
              st_markdown hash_response;
              st_download_button "Download Report"
                ("# BGF Backs FTooling Firm" ++ nl ++ nl ++ hash_response)
                "Anstey Horne_Deal_Summary_Report.md" "text/markdown" ];
          raised := None |}.
Proof.
  assert (H : find (looks_like_title ascii_isupper (Investor sample_page))
                   (firstn 5 (lines_of (strip hash_response)))
              = Some "# BGF Backs F# Tooling Firm") by reflexivity.
  pose proof (title_has_no_hash ascii_isupper sample_page hash_response _ H)
    as (E & _ & _ & D).
  split; [exact H|]. split; [rewrite E; reflexivity|].
  exact (D hash_state ["Searching."] eq_refl).
Defined.

(** ** Worked examples *)

Example humanize_examples :
  map humanize ["deal_overview"; "products_services"; "portco_profile"; "competitors"]
  = ["Deal Overview"; "Products Services"; "Portco Profile"; "Competitors"].
Proof. reflexivity. Qed.

Example include_sections_example :
  include_sections sample_page
  = [ ("deal_overview", true); ("transaction_details", true);
      ("market_analysis", false); ("competitors", true); ("sources", true) ].
Proof. reflexivity. Qed.

Example title_of_heading :
  extract_title ascii_isupper sample_page "# Acme Corp Acquires Widget Co"
  = "Acme Corp Acquires Widget Co".
Proof. reflexivity. Qed.

Example title_fallback :
  extract_title ascii_isupper sample_page ("Some prose." ++ nl ++ "More prose.")
  = "Anstey Horne".
Proof. reflexivity. Qed.

Example title_of_second_level_heading :
  extract_title ascii_isupper sample_page
    ("## Overview" ++ nl ++ "BGF invests in Anstey Horne")
  = "BGF invests in Anstey Horne".
Proof. reflexivity. Qed.

(** A first line in capitals is taken for the title; one that only starts
    with capitals is not. *)
Example title_in_capitals :
  extract_title ascii_isupper sample_page capitals_response = "DEAL REPORT 2024"
  /\ looks_like_title ascii_isupper "BGF" "DEAL REPORT 2024" = true
  /\ looks_like_title ascii_isupper "BGF" "DEAL Report" = false
  /\ looks_like_title ascii_isupper "BGF" "2024" = false.
Proof. repeat split. Qed.

(** The upper-case test is the interpreter's: a heading in Cyrillic capitals
    is taken for the title as soon as [str.isupper] holds of it. *)
Example title_in_cyrillic_capitals (str_isupper : string -> bool) :
  str_isupper cyrillic_capitals = true ->
  extract_title str_isupper sample_page (cyrillic_capitals ++ nl ++ "body text")
  = cyrillic_capitals.
Proof.
  intros H. unfold extract_title.
  change (split nl_char (strip (cyrillic_capitals ++ nl ++ "body text")))
    with [cyrillic_capitals; "body text"].
  cbn [firstn title_loop]. unfold looks_like_title. rewrite H, orb_true_r. reflexivity.
Qed.

(** White space of more than one byte is stripped: a no-break space before
    the heading, an ideographic space after the title. *)
Example strip_examples :
  strip (no_break_space ++ "# Growth Deal" ++ nl) = "# Growth Deal"
  /\ strip ("Title" ++ ideographic_space ++ " ") = "Title"
  /\ strip ("a" ++ no_break_space ++ "b") = "a" ++ no_break_space ++ "b"
  /\ strip (no_break_space ++ ideographic_space) = EmptyString.
Proof. repeat split. Qed.

Example title_after_no_break_space :
  extract_title ascii_isupper sample_page
    (no_break_space ++ "# Growth Deal" ++ nl ++ "Body text.")
  = "Growth Deal".
Proof. reflexivity. Qed.

Example file_name_example :
  file_name sample_page = "Anstey Horne_Deal_Summary_Report.md".
Proof. reflexivity. Qed.

Example os_path_join_example :
  os_path_join "backend/src" "scraped_companies_final.json"
  = "backend/src/scraped_companies_final.json".
Proof. reflexivity. Qed.

Example rejected_without_sources :
  on_generate ascii_isupper sample_dumps (fun _ => None) (Some (no_section_page false))
  = {| trace := [st_error no_section_message]; raised := None |}.
Proof. reflexivity. Qed.

(** The investor's list of deals is empty: the button is there, and pressing
    it raises. *)
Example press_without_deal :
  on_generate ascii_isupper sample_dumps standard_only_agent None
  = {| trace := []; raised := Some (NameError "include_sections") |}.
Proof. reflexivity. Qed.

(** * Further properties of the script *)

(** ** White space and the title *)

(** Nothing is left to skip at the head of a text stripped on the left. *)
Lemma lstrip_starts_clean (s : string) : starts_clean (lstrip s) = true.
Proof.
  induction s as [s IH] using string_length_ind.
  rewrite lstrip_unfold. destruct (skip_space s) as [rest|] eqn:E.
  - apply IH. exact (skip_space_shorter s rest E).
  - unfold starts_clean. now rewrite E.
Qed.

Lemma lstrip_id (s : string) : starts_clean s = true -> lstrip s = s.
Proof.
  unfold starts_clean. intros H. rewrite lstrip_unfold.
  destruct (skip_space s); [discriminate | reflexivity].
Qed.

(** A white space character at the head of a text is one at the head of any
    longer text. *)
Lemma skip_space_app (a rest w : string) :
  skip_space a = Some rest -> skip_space (a ++ w) = Some (rest ++ w).
Proof.
  destruct a as [|c [|d [|e a3]]]; cbn [skip_space append]; try discriminate.
  - destruct (is_space c); [|discriminate]. intros H; injection H as <-. reflexivity.
  - destruct (is_space c); [intros H; injection H as <-; reflexivity|].
    destruct (is_space2 c d); [|discriminate]. intros H; injection H as <-. reflexivity.
  - destruct (is_space c); [intros H; injection H as <-; reflexivity|].
    destruct (is_space2 c d); [intros H; injection H as <-; reflexivity|].
    destruct (is_space3 c d e); [|discriminate]. intros H; injection H as <-. reflexivity.
Qed.

Lemma all_space_skip (s : string) :
  all_space s = true -> s <> EmptyString ->
  exists rest, skip_space s = Some rest /\ all_space rest = true.
Proof.
  unfold all_space. rewrite lstrip_unfold.
  destruct (skip_space s) as [rest|]; intros H Hne.
  - exists rest. split; [reflexivity | exact H].
  - destruct s; [contradiction | discriminate].
Qed.

(** White space before a text is skipped with the text's own. *)
Lemma lstrip_all_space_app (a w : string) :
  all_space a = true -> lstrip (a ++ w) = lstrip w.
Proof.
  induction a as [a IH] using string_length_ind. intros H.
  destruct a as [|c a']; [reflexivity|].
  destruct (all_space_skip (String c a') H) as [rest [E Hr]]; [discriminate|].
  rewrite lstrip_unfold, (skip_space_app _ _ w E).
  apply IH; [exact (skip_space_shorter _ _ E) | exact Hr].
Qed.

(** What [rstrip] cuts is white space. *)
Lemma rstrip_cut (s : string) :
  exists w, s = rstrip s ++ w /\ all_space w = true.
Proof.
  induction s as [|c s IH]; [exists EmptyString; split; reflexivity|].
  cbn [rstrip]. destruct (all_space (String c s)) eqn:E.
  - exists (String c s). split; [reflexivity | exact E].
  - destruct IH as [w [Hs Hw]]. exists w. split; [|exact Hw].
    cbn [append]. now rewrite <- Hs.
Qed.

Lemma all_space_rstrip (s : string) :
  all_space (rstrip s) = true -> all_space s = true.
Proof.
  intros H. destruct (rstrip_cut s) as [w [Hs Hw]].
  rewrite Hs. unfold all_space in *. rewrite (lstrip_all_space_app _ w H). exact Hw.
Qed.

(** Cutting twice cuts nothing more. *)
Lemma rstrip_idempotent (s : string) : rstrip (rstrip s) = rstrip s.
Proof.
  induction s as [|c s IH]; [reflexivity|].
  cbn [rstrip]. destruct (all_space (String c s)) eqn:E; [reflexivity|].
  assert (N : all_space (String c (rstrip s)) = false).
  { destruct (all_space (String c (rstrip s))) eqn:F; [|reflexivity].
    assert (R : rstrip (String c s) = String c (rstrip s)) by (cbn [rstrip]; now rewrite E).
    rewrite <- R in F. apply all_space_rstrip in F. congruence. }
  change (rstrip (String c (rstrip s)))
    with (if all_space (String c (rstrip s)) then EmptyString
          else String c (rstrip (rstrip s))).
  now rewrite N, IH.
Qed.

Lemma rstrip_ends_clean (s : string) : ends_clean (rstrip s) = true.
Proof. unfold ends_clean. rewrite rstrip_idempotent. apply String.eqb_refl. Qed.

Lemma rstrip_id (s : string) : ends_clean s = true -> rstrip s = s.
Proof. unfold ends_clean. apply String.eqb_eq. Qed.

(** Cutting the end of a text leaves its head as it is. *)
Lemma rstrip_starts_clean (s : string) :
  starts_clean s = true -> starts_clean (rstrip s) = true.
Proof.
  unfold starts_clean. intros H.
  destruct (skip_space (rstrip s)) as [rest|] eqn:E; [|reflexivity].
  destruct (rstrip_cut s) as [w [Hs _]].
  rewrite Hs, (skip_space_app _ _ w E) in H. discriminate.
Qed.

Lemma strip_clean (s : string) :
  starts_clean (strip s) = true /\ ends_clean (strip s) = true.
Proof.
  unfold strip. split; [apply rstrip_starts_clean, lstrip_starts_clean | apply rstrip_ends_clean].
Qed.

Lemma strip_id (s : string) :
  starts_clean s = true -> ends_clean s = true -> strip s = s.
Proof. intros H1 H2. unfold strip. now rewrite (lstrip_id s H1), (rstrip_id s H2). Qed.

(** Stripping twice changes nothing more. *)
Lemma strip_idempotent (s : string) : strip (strip s) = strip s.
Proof. destruct (strip_clean s). now apply strip_id. Qed.

(** The second and third bytes of a white space character are not below 128:
    a line break is neither. *)
Lemma is_space2_newline (c : ascii) : is_space2 c nl_char = false.
Proof.
  unfold is_space2. change (code nl_char) with 10%N.
  cbn [N.eqb Pos.eqb orb]. apply andb_false_r.
Qed.

Lemma is_space3_newline_second (c e : ascii) : is_space3 c nl_char e = false.
Proof.
  unfold is_space3. change (code nl_char) with 10%N.
  cbn [N.eqb Pos.eqb]. now rewrite !andb_false_r.
Qed.

Lemma is_space3_newline_third (c d : ascii) : is_space3 c d nl_char = false.
Proof.
  unfold is_space3. change (code nl_char) with 10%N.
  cbn [N.eqb Pos.eqb N.leb N.compare Pos.compare Pos.compare_cont andb orb].
  now rewrite !andb_false_r.
Qed.

(** A white space character at the head of a text followed by a line break
    lies within the text. *)
Lemma skip_space_before_newline (u b rest : string) :
  u <> EmptyString ->
  skip_space (u ++ String nl_char b) = Some rest ->
  exists r, skip_space u = Some r /\ rest = r ++ String nl_char b.
Proof.
  intros Hne. destruct u as [|c [|d [|e u3]]]; [contradiction| | |];
    cbn [append skip_space].
  - destruct (is_space c); [intros H; injection H as <-; exists EmptyString; now split|].
    rewrite is_space2_newline. destruct b as [|e b]; [discriminate|].
    rewrite is_space3_newline_second. discriminate.
  - destruct (is_space c);
      [intros H; injection H as <-; exists (String d EmptyString); now split|].
    destruct (is_space2 c d); [intros H; injection H as <-; exists EmptyString; now split|].
    rewrite is_space3_newline_third. discriminate.
  - destruct (is_space c);
      [intros H; injection H as <-; exists (String d (String e u3)); now split|].
    destruct (is_space2 c d);
      [intros H; injection H as <-; exists (String e u3); now split|].
    destruct (is_space3 c d e); [|discriminate].
    intros H; injection H as <-. exists u3. now split.
Qed.

(** White space that runs up to a line break is white space. *)
Lemma all_space_before_newline (u b : string) :
  all_space (u ++ String nl_char b) = true -> all_space u = true.
Proof.
  induction u as [u IH] using string_length_ind. intros H.
  destruct u as [|c u']; [reflexivity|].
  destruct (all_space_skip _ H) as [rest [E Hr]]; [discriminate|].
  destruct (skip_space_before_newline (String c u') b rest) as [r [Er ->]];
    [discriminate | exact E |].
  unfold all_space. rewrite lstrip_unfold, Er.
  apply IH; [exact (skip_space_shorter _ _ Er) | exact Hr].
Qed.

(** Nothing is cut from a text that ends clean when a line break follows. *)
Lemma rstrip_app_line (a b : string) :
  ends_clean a = true ->
  rstrip (a ++ String nl_char b) = a ++ rstrip (String nl_char b).
Proof.
  intros H. apply rstrip_id in H. induction a as [|c a IH]; [reflexivity|].
  cbn [rstrip] in H. destruct (all_space (String c a)) eqn:E; [discriminate|].
  injection H as Ha.
  change (rstrip (String c a ++ String nl_char b))
    with (if all_space (String c a ++ String nl_char b) then EmptyString
          else String c (rstrip (a ++ String nl_char b))).
  destruct (all_space (String c a ++ String nl_char b)) eqn:F.
  - apply all_space_before_newline in F. congruence.
  - now rewrite (IH Ha).
Qed.

(** A heading marker before a clean title: nothing to strip. *)
Lemma heading_clean (t : string) :
  t <> EmptyString -> starts_clean t = true -> ends_clean t = true ->
  starts_clean ("# " ++ t) = true /\ ends_clean ("# " ++ t) = true.
Proof.
  intros Hne Hs He. split.
  - destruct t as [|e t]; reflexivity.
  - apply rstrip_id in He. unfold ends_clean. apply String.eqb_eq.
    assert (A : all_space t = false).
    { destruct t as [|c t]; [contradiction|]. cbn [rstrip] in He.
      destruct (all_space (String c t)); [discriminate | reflexivity]. }
    assert (B : all_space (String " " t) = false) by exact A.
    assert (C : all_space ("# " ++ t) = false) by (destruct t; reflexivity).
    change (rstrip ("# " ++ t))
      with (if all_space ("# " ++ t) then EmptyString
            else String "#" (if all_space (String " " t) then EmptyString
                             else String " " (rstrip t))).
    now rewrite C, B, He.
Qed.

(** Replacing by nothing only drops characters. *)
Lemma replace_from_free (c : ascii) (old : string) (skip : nat) (s : string) :
  free_of c s = true -> free_of c (replace_from old EmptyString skip s) = true.
Proof.
  revert skip. induction s as [|x s IH]; intros skip H; [reflexivity|].
  cbn [free_of] in H. apply andb_true_iff in H. destruct H as [Hx Hs].
  cbn [replace_from]. destruct skip; [|now apply IH].
  destruct (String.prefix old (String x s)); cbn [append free_of]; [now apply IH|].
  now rewrite Hx, IH.
Qed.

Lemma remove_char_keeps_free (c d : ascii) (s : string) :
  free_of c s = true -> free_of c (remove_char d s) = true.
Proof.
  induction s as [|x s IH]; intros H; [reflexivity|].
  cbn [free_of] in H. apply andb_true_iff in H. destruct H as [Hx Hs].
  cbn [remove_char]. destruct (Ascii.eqb x d); [now apply IH|].
  cbn [free_of]. now rewrite Hx, IH.
Qed.

Lemma clean_title_free (c : ascii) (line : string) :
  free_of c line = true -> free_of c (clean_title line) = true.
Proof.
  intros H. unfold clean_title, strip. rewrite replace_hash.
  apply rstrip_free, lstrip_free, remove_char_keeps_free.
  unfold replace. now apply replace_from_free.
Qed.

(** The pieces of a split do not contain the separator. *)
Lemma split_pieces_free (sep : ascii) (s : string) :
  Forall (fun piece => free_of sep piece = true) (split sep s).
Proof.
  induction s as [|c s IH]; cbn [split]; [repeat constructor|].
  destruct (Ascii.eqb c sep) eqn:E; [constructor; [reflexivity | exact IH]|].
  destruct (split sep s) as [|h t]; [repeat constructor; cbn; now rewrite E|].
  inversion IH; subst. constructor; [cbn [free_of]; rewrite E; assumption | assumption].
Qed.

(** A text without hash sign has nothing to replace. *)
Lemma replace_marker_id (s : string) :
  free_of hash_char s = true -> replace_from "# " EmptyString 0 s = s.
Proof.
  induction s as [|c s IH]; intros H; [reflexivity|].
  cbn [free_of] in H. apply andb_true_iff in H. destruct H as [Hc Hs].
  cbn [replace_from].
  change (String.prefix "# " (String c s))
    with (if ascii_dec "#" c then String.prefix " " s else false).
  destruct (ascii_dec "#" c) as [E|_]; [subst c; discriminate Hc|].
  now rewrite IH.
Qed.

Lemma remove_char_id (c : ascii) (s : string) :
  free_of c s = true -> remove_char c s = s.
Proof.
  induction s as [|x s IH]; intros H; [reflexivity|].
  cbn [free_of] in H. apply andb_true_iff in H. destruct H as [Hx Hs].
  cbn [remove_char]. apply negb_true_iff in Hx. now rewrite Hx, IH.
Qed.

(** Cleaning the heading made of a clean title gives the title back. *)
Lemma clean_title_heading (t : string) :
  free_of hash_char t = true -> starts_clean t = true -> ends_clean t = true ->
  clean_title ("# " ++ t) = t.
Proof.
  intros Hh Hs He. unfold clean_title. rewrite replace_hash.
  assert (R : replace "# " EmptyString ("# " ++ t) = t).
  { unfold replace. cbn [append replace_from String.length Nat.sub].
    change (String.prefix "# " (String "#" (String " " t))) with (String.prefix EmptyString t).
    destruct t; cbn [String.prefix append replace_from]; [reflexivity|].
    apply (replace_marker_id _ Hh). }
  rewrite R, (remove_char_id _ _ Hh). now apply strip_id.
Qed.

Lemma rstrip_newline_head (s : string) :
  rstrip (String nl_char s) = EmptyString
  \/ exists r, rstrip (String nl_char s) = String nl_char r.
Proof.
  cbn [rstrip]. destruct (all_space (String nl_char s));
    [left; reflexivity | right; eexists; reflexivity].
Qed.

(** The first line of a downloaded report is its heading. *)
Lemma report_text_first_line (t response : string) :
  t <> EmptyString -> free_of nl_char t = true ->
  starts_clean t = true -> ends_clean t = true ->
  exists rest, lines_of (strip (report_text t response)) = ("# " ++ t) :: rest.
Proof.
  intros Hne Hnl Hs He. unfold report_text, strip.
  destruct (heading_clean t Hne Hs He) as [_ He'].
  assert (L : lstrip ("# " ++ t ++ nl ++ nl ++ response) = "# " ++ t ++ nl ++ nl ++ response).
  { apply lstrip_id. destruct t as [|e t]; [contradiction | reflexivity]. }
  rewrite L.
  replace ("# " ++ t ++ nl ++ nl ++ response) with (("# " ++ t) ++ String nl_char (nl ++ response))
    by (now rewrite append_assoc).
  rewrite (rstrip_app_line _ _ He').
  assert (F : free_of nl_char ("# " ++ t) = true) by exact Hnl.
  destruct (rstrip_newline_head (nl ++ response)) as [E|[r E]]; rewrite E.
  - rewrite append_nil_r. unfold lines_of. rewrite (split_free_of _ _ F). eexists; reflexivity.
  - unfold lines_of. rewrite split_app_sep, (split_free_of _ _ F). eexists; reflexivity.
Qed.

Lemma in_firstn {A : Type} (n : nat) (l : list A) (x : A) :
  In x (firstn n l) -> In x l.
Proof.
  intros H. rewrite <- (firstn_skipn n l). apply in_or_app. now left.
Qed.

Section RoundTrip.

Variable str_isupper : string -> bool.

(** Reading the title back from the text offered for download gives the
    title that was written into it. *)
Lemma title_of_report_text (p : page) (t response : string) :
  t <> EmptyString -> free_of nl_char t = true -> free_of hash_char t = true ->
  starts_clean t = true -> ends_clean t = true ->
  extract_title str_isupper p (report_text t response) = t.
Proof.
  intros Hne Hnl Hh Hs He. unfold extract_title.
  destruct (report_text_first_line t response Hne Hnl Hs He) as [rest E].
  unfold lines_of in E. rewrite E. cbn [firstn title_loop].
  assert (L : looks_like_title str_isupper (Investor p) ("# " ++ t) = true).
  { unfold looks_like_title, startswith. cbn [append String.prefix].
    destruct (ascii_dec "#" "#") as [_|N]; [|now contradiction N].
    destruct (ascii_dec " " " ") as [_|N]; [|now contradiction N].
    destruct t; reflexivity. }
  rewrite L. now apply clean_title_heading.
Qed.

Lemma found_line_free_of_newline (investor response line : string) :
  find (looks_like_title str_isupper investor) (firstn 5 (lines_of (strip response)))
  = Some line ->
  free_of nl_char line = true.
Proof.
  intros H. apply find_some in H. destruct H as [Hin _].
  apply in_firstn in Hin.
  pose proof (split_pieces_free nl_char (strip response)) as F.
  rewrite Forall_forall in F. exact (F _ Hin).
Qed.

(** When a line of the answer gave the title, the title is one clean line:
    no line break, no hash sign, no white space around it. *)
Lemma extracted_title_clean (p : page) (response line : string) :
  find (looks_like_title str_isupper (Investor p)) (firstn 5 (lines_of (strip response)))
  = Some line ->
  free_of nl_char (extract_title str_isupper p response) = true
  /\ free_of hash_char (extract_title str_isupper p response) = true
  /\ starts_clean (extract_title str_isupper p response) = true
  /\ ends_clean (extract_title str_isupper p response) = true.
Proof.
  intros H.
  assert (E : extract_title str_isupper p response = clean_title line).
  { unfold extract_title. rewrite title_loop_find. unfold lines_of in H. now rewrite H. }
  rewrite E. split; [|split].
  - apply clean_title_free. exact (found_line_free_of_newline _ _ _ H).
  - apply clean_title_free_of_hash.
  - exact (strip_clean _).
Qed.

(** X6. When a line of the answer gave a title that is not empty, extracting
    the title again from the text offered for download gives the same title. *)
Theorem title_survives_download (p : page) (response line : string) :
  find (looks_like_title str_isupper (Investor p)) (firstn 5 (lines_of (strip response)))
  = Some line ->
  extract_title str_isupper p response <> EmptyString ->
  extract_title str_isupper p (report_text (extract_title str_isupper p response) response)
  = extract_title str_isupper p response.
Proof.
  intros H Hne. destruct (extracted_title_clean p response line H) as (Hnl & Hh & Hs & He).
  now apply title_of_report_text.
Qed.

(** X7. When a line of the answer gave the title, the title has no white
    space around it, and the text offered for download is the heading line
    "# title", an empty line, and then the answer, line for line. *)
Theorem download_starts_with_heading (p : page) (response line : string) :
  find (looks_like_title str_isupper (Investor p)) (firstn 5 (lines_of (strip response)))
  = Some line ->
  strip (extract_title str_isupper p response) = extract_title str_isupper p response
  /\ lines_of (report_text (extract_title str_isupper p response) response)
     = ("# " ++ extract_title str_isupper p response) :: EmptyString :: lines_of response.
Proof.
  intros H. destruct (extracted_title_clean p response line H) as (Hnl & Hh & Hs & He).
  split; [now apply strip_id|].
  unfold report_text.
  replace ("# " ++ extract_title str_isupper p response ++ nl ++ nl ++ response)
    with (("# " ++ extract_title str_isupper p response) ++ String nl_char (nl ++ response))
    by (now rewrite append_assoc).
  unfold lines_of. rewrite split_app_sep, (split_free_of _ ("# " ++ _)) by exact Hnl.
  change (nl ++ response) with (String nl_char response). cbn [split app].
  now rewrite Ascii.eqb_refl.
Qed.

End RoundTrip.

(** ** The handler, the request and the answer *)

Ltac eval_eqb :=
  repeat match goal with
         | |- context [String.eqb ?a ?b] =>
             let r := eval vm_compute in (String.eqb a b) in
             change (String.eqb a b) with r
         end;
  cbv iota.

Lemma guard_value (p : page) :
  any (dict_values (include_sections p)) = include_sources p || some_section_ticked p.
Proof.
  unfold some_section_ticked, include_sections, section_catalog.
  destruct p as [rt mo re inc det cb name deal inv url];
    cbn [report_type st_checkbox include_sources].
  repeat match goal with
         | |- context [String.eqb rt ?l] => destruct (String.eqb rt l)
         end;
    cbv beta iota fix delta [existsb snd]; destruct inc;
    repeat match goal with
           | |- context [cb ?l] => destruct (cb l)
           end; reflexivity.
Qed.

Section AnswerFacts.

Variable str_isupper : string -> bool.
Variable json_dumps_indent2 : json -> string.
Variable graph_invoke : invoke_request -> agent_state.

Let request_of := request json_dumps_indent2.
Let display := display_result str_isupper.
Let press := on_generate str_isupper json_dumps_indent2 graph_invoke.
Let generate (p : page) : run := press (Some p).

Lemma display_result_calls (p : page) (state : agent_state) :
  filter is_invoke (trace (display p state)) = [].
Proof.
  unfold display, display_result.
  destruct (truthy state && has_messages state); [|reflexivity].
  destruct (last_content state); reflexivity.
Qed.

(** X3. Without a selected deal, a press of the button ends with a
    [NameError] on [include_sections]: nothing is shown and the agent is not
    called.  With a deal selected, the agent is called once when citations
    are on or a section checkbox of the report type is ticked: it is applied
    to the request built from the page, and the state it returns is the one
    displayed.  Otherwise the message about the sections is all that happens,
    and the agent is not called. *)
Theorem agent_called_once_iff_guard :
  press None = {| trace := []; raised := Some (NameError "include_sections") |}
  /\ agent_calls (press None) = 0
  /\ forall p : page,
       agent_calls (generate p)
       = (if include_sources p || some_section_ticked p then 1 else 0)
       /\ (include_sources p || some_section_ticked p = true ->
           generate p
           = {| trace :=
                  st_spinner ("Generating " ++ report_type p ++ " for "
                              ++ selected_deal_name p ++ "...")
                  :: graph_invoke_call (request_of p)
                  :: trace (display p (graph_invoke (request_of p)));
                raised := raised (display p (graph_invoke (request_of p))) |})
       /\ (include_sources p || some_section_ticked p = false ->
           generate p = {| trace := [st_error no_section_message]; raised := None |}).
Proof.
  split; [reflexivity|]. split; [reflexivity|]. intros p. split; [|split].
  - unfold agent_calls, generate, press, on_generate. rewrite guard_value.
    destruct (include_sources p || some_section_ticked p); cbn [negb trace filter is_invoke];
      [|reflexivity].
    rewrite (display_result_calls p). reflexivity.
  - intros H. rewrite <- guard_value in H.
    exact (generate_run str_isupper json_dumps_indent2 graph_invoke p H).
  - intros H. unfold generate, press, on_generate. rewrite guard_value, H. reflexivity.
Qed.

(** X4. When the state has messages, only the last one is used: its content
    is shown unchanged under the extracted title, and the download holds the
    title as a heading followed by that content. *)
Theorem last_message_displayed (p : page) (d : dict state_value)
    (earlier : list string) (response : string) :
  dict_get "messages" d = Some (SMessages (earlier ++ [response])%list) ->
  display_result str_isupper p (Some d)
  = {| trace :=
         [ st_subheader (extract_title str_isupper p response);
           st_markdown "---";
           st_markdown response;
           st_download_button "Download Report"
             ("# " ++ extract_title str_isupper p response ++ nl ++ nl ++ response)
             (selected_deal_name p ++ "_" ++ replace " " "_" (report_type p) ++ ".md")
             "text/markdown" ];
       raised := None |}.
Proof.
  intros H. unfold display_result, truthy, has_messages, dict_has, last_content.
  rewrite H. destruct d as [|kv d]; [discriminate|]. cbn [andb].
  rewrite rev_app_distr. reflexivity.
Qed.

(** X5. A state whose "messages" list is empty passes the test on the state
    and then raises [IndexError]: the run ends after the call of the agent and
    no failure message is shown. *)
Theorem empty_messages_raise (p : page) (d : dict state_value) :
  dict_get "messages" d = Some (SMessages []) ->
  display_result str_isupper p (Some d) = {| trace := []; raised := Some IndexError |}
  /\ (graph_invoke (request json_dumps_indent2 p) = Some d ->
      any (dict_values (include_sections p)) = true ->
      raised (generate p) = Some IndexError
      /\ existsb (fun e => match e with st_error _ => true | _ => false end)
           (trace (generate p)) = false).
Proof.
  intros H.
  assert (D : display_result str_isupper p (Some d)
              = {| trace := []; raised := Some IndexError |}).
  { unfold display_result, truthy, has_messages, dict_has, last_content.
    rewrite H. destruct d as [|kv d]; [discriminate | reflexivity]. }
  split; [exact D|]. intros Hs Hany.
  unfold generate, press, on_generate. rewrite Hany, Hs, D. split; reflexivity.
Qed.

End AnswerFacts.

Lemma replace_space_free (s : string) :
  free_of " " (replace " " "_" s) = true.
Proof.
  unfold replace. induction s as [|c s IH]; [reflexivity|].
  cbn [replace_from String.length Nat.sub].
  change (String.prefix " " (String c s))
    with (if ascii_dec " " c then String.prefix EmptyString s else false).
  destruct (ascii_dec " " c) as [E|N].
  - subst c. destruct s; cbn [String.prefix append free_of]; [reflexivity | exact IH].
  - cbn [free_of]. rewrite IH, andb_true_r. apply negb_true_iff.
    apply Ascii.eqb_neq. congruence.
Qed.

(** X8. The name of the downloaded file has no space when the company name
    has none: the spaces of the report type are replaced by underscores. *)
Theorem file_name_without_space (p : page) :
  free_of " " (selected_deal_name p) = true ->
  free_of " " (file_name p) = true.
Proof.
  intros H. unfold file_name. rewrite !free_of_app, H, replace_space_free. reflexivity.
Qed.

(** X1. Whatever the research depth is, the number of initial queries is
    between 2 and 6, the number of loops between 2 and 10 and at least the
    number of queries; everything but Basic and Comprehensive gives (4, 5). *)
Theorem research_parameters_range (research_effort : string) :
  let queries := fst (research_parameters research_effort) in
  let loops := snd (research_parameters research_effort) in
  2 <= queries <= 6 /\ 2 <= loops <= 10 /\ queries <= loops
  /\ (research_effort <> "Basic" -> research_effort <> "Comprehensive" ->
      research_parameters research_effort = (4, 5)).
Proof.
  unfold research_parameters.
  destruct (String.eqb_spec research_effort "Basic");
    [|destruct (String.eqb_spec research_effort "Comprehensive")];
    cbn; repeat split; try lia; try contradiction; reflexivity.
Qed.

(** X2. In [include_sections] every section of the report type's catalog
    is found under its own key with the state of its checkbox, and the
    "sources" key is present, with [True], exactly when citations are on. *)
Theorem include_sections_lookup (p : page) :
  (In (report_type p) report_types ->
   forall s, In s (section_catalog (report_type p)) ->
     dict_get (fst s) (include_sections p) = Some (st_checkbox p (snd s)))
  /\ dict_get "sources" (include_sections p)
     = (if include_sources p then Some true else None).
Proof.
  split.
  - intros H s Hs. unfold include_sections, section_catalog in *.
    destruct p as [rt mo re inc det cb name deal inv url];
      cbn [report_type st_checkbox include_sources] in *.
    destruct H as [H|[H|[H|[H|[]]]]]; subst rt; revert Hs; eval_eqb; intros Hs;
      repeat (destruct Hs as [Hs|Hs]; [subst s; cbn [fst snd]|]); try contradiction;
      destruct inc; reflexivity.
  - unfold include_sections.
    repeat match goal with
           | |- context [String.eqb (report_type p) ?l] =>
               destruct (String.eqb (report_type p) l)
           end; destruct (include_sources p); reflexivity.
Qed.

(** ** What the prompt holds, what the loader shows *)

Lemma prefix_app (x b : string) : String.prefix x (x ++ b) = true.
Proof.
  induction x as [|c x IH]; cbn [append]; [destruct b; reflexivity|].
  cbn [String.prefix]. destruct (ascii_dec c c) as [_|N]; [exact IH | now contradiction N].
Qed.

Lemma contains_here (x y b : string) : y = x ++ b -> contains x y = true.
Proof.
  intros ->. destruct (x ++ b) eqn:E; cbn [contains]; rewrite <- E, prefix_app; reflexivity.
Qed.

Lemma contains_app_r (x a b : string) : contains x b = true -> contains x (a ++ b) = true.
Proof.
  intros H. induction a as [|c a IH]; [exact H|].
  cbn [append contains]. rewrite IH. apply orb_true_r.
Qed.

(** Looks for the place where the text sought starts. *)
Ltac find_text :=
  first [ solve [eapply contains_here; rewrite ?append_assoc; reflexivity]
        | apply contains_app_r; find_text ].

Section PromptContents.

Variable json_dumps_indent2 : json -> string.

(** X9. The prompt holds, as they are, the sentence with the report type and
    the company name, the serialized deal record, the sentence with the
    investor and the portfolio URL (or "Not available"), and the request with
    the report type in lower case. *)
Theorem prompt_embeds_deal (p : page) :
  let text := prompt json_dumps_indent2 p in
  contains ("Generate a detailed " ++ report_type p ++ " for the company "
            ++ selected_deal_name p ++ ".") text = true
  /\ contains (json_dumps_indent2 (selected_deal p)) text = true
  /\ contains ("For the investor " ++ Investor p ++ ", with portfolio URL: "
               ++ match Investor_portfolio_url p with
                  | Some url => url
                  | None => "Not available"
                  end) text = true
  /\ contains ("Based on this information and additional research, please provide a comprehensive "
               ++ lower (report_type p) ++ " with the following sections:") text = true.
Proof.
  cbv zeta. rewrite prompt_parts. unfold prompt_template, line.
  rewrite !append_assoc.
  repeat split; find_text.
Qed.

End PromptContents.

Section LoaderMessages.

Variable path_exists : string -> bool.
Variable open_read : string -> option string.
Variable json_loads : string -> option json.
Variable script_dir : string.
Variable exn_text : py_exn -> string.
Variable getcwd : string.

(** X10. The loader shows nothing when it can read and parse the file it
    located; when it cannot, it shows three errors, the first with the text of
    the exception, and returns the empty catalog. *)
Theorem loader_messages :
  match json_load_file open_read json_loads (located_path path_exists script_dir) with
  | Return data =>
      load_deal_data path_exists open_read json_loads script_dir exn_text getcwd
      = ([], Return data)
  | Raise e =>
      load_deal_data path_exists open_read json_loads script_dir exn_text getcwd
      = ([ st_error ("Error loading deal data: " ++ exn_text e);
           st_error ("Current directory: " ++ getcwd);
           st_error "Please make sure the JSON file is at the correct location" ],
         Return empty_catalog)
  end.
Proof.
  unfold load_deal_data. rewrite load_deal_data_try_located.
  destruct (json_load_file open_read json_loads (located_path path_exists script_dir));
    reflexivity.
Qed.
End LoaderMessages.

(** ** The catalog on the page *)

Section CatalogFacts.

Variable py_eq : json -> json -> bool.
Variable number_is_zero : string -> bool.

(** On two strings [==] compares the texts. *)
Hypothesis py_eq_strings :
  forall a b : string, py_eq (JString a) (JString b) = String.eqb a b.

Lemma pluck_strings_cons (key : string) (item : json) (rest : list json) (names : list string) :
  Catalog.pluck key (item :: rest) = Catalog.Ok (Catalog.strings names) ->
  exists n names', names = n :: names'
    /\ Catalog.getitem item key = Catalog.Ok (JString n)
    /\ Catalog.pluck key rest = Catalog.Ok (Catalog.strings names').
Proof.
  cbn [Catalog.pluck]. unfold Catalog.bind.
  destruct (Catalog.getitem item key) as [x|e]; [|discriminate].
  destruct (Catalog.pluck key rest) as [xs|e]; [|discriminate].
  intros H. injection H as H. destruct names as [|n names']; [discriminate|].
  cbn [Catalog.strings map] in H. injection H as Hx Hxs. subst x xs.
  exists n, names'. repeat split.
Qed.

Lemma pluck_length (key : string) (items : list json) (values : list json) :
  Catalog.pluck key items = Catalog.Ok values -> List.length values = List.length items.
Proof.
  revert values. induction items as [|item rest IH]; intros values.
  - cbn. intros H. injection H as <-. reflexivity.
  - cbn [Catalog.pluck]. unfold Catalog.bind.
    destruct (Catalog.getitem item key) as [x|e]; [|discriminate].
    destruct (Catalog.pluck key rest) as [xs|e]; [|discriminate].
    intros H. injection H as <-. cbn [List.length]. now rewrite (IH xs eq_refl).
Qed.

(** The lookup returns the item at the first position where the name occurs. *)
Lemma next_match_first (key : string) (items : list json) (names : list string) (name : string) :
  Catalog.pluck key items = Catalog.Ok (Catalog.strings names) ->
  Catalog.next_match py_eq key (JString name) items
  = Catalog.Ok (nth_error items (Catalog.first_index name names)).
Proof.
  revert names. induction items as [|item rest IH]; intros names H.
  - cbn in H. injection H as H. destruct names; [reflexivity | discriminate].
  - destruct (pluck_strings_cons _ _ _ _ H) as (n & names' & -> & Hitem & Hrest).
    cbn [Catalog.next_match Catalog.first_index]. unfold Catalog.bind.
    rewrite Hitem, py_eq_strings.
    destruct (String.eqb n name); [reflexivity|].
    cbn [nth_error]. exact (IH names' Hrest).
Qed.

Lemma first_index_le (names : list string) (i : nat) :
  i < List.length names ->
  Catalog.first_index (nth i names EmptyString) names <= i
  /\ nth (Catalog.first_index (nth i names EmptyString) names) names EmptyString
     = nth i names EmptyString.
Proof.
  revert i. induction names as [|n names IH]; intros i Hi; [cbn in Hi; lia|].
  cbn [Catalog.first_index]. destruct i as [|i].
  - cbn [nth]. rewrite String.eqb_refl. split; [lia | reflexivity].
  - cbn [nth]. destruct (String.eqb_spec n (nth i names EmptyString)) as [E|N].
    + split; [lia | exact E].
    + cbn [List.length] in Hi. destruct (IH i ltac:(lia)) as [L E]. split; [lia | exact E].
Qed.

Lemma first_index_nodup (names : list string) (i : nat) :
  NoDup names -> i < List.length names ->
  Catalog.first_index (nth i names EmptyString) names = i.
Proof.
  intros N. revert i. induction N as [|n names Hn N IH]; intros i Hi; [cbn in Hi; lia|].
  cbn [Catalog.first_index]. destruct i as [|i]; cbn [nth].
  - now rewrite String.eqb_refl.
  - cbn [List.length] in Hi.
    destruct (String.eqb_spec n (nth i names EmptyString)) as [E|_].
    + exfalso. apply Hn. rewrite E. apply nth_In. lia.
    + f_equal. apply IH. lia.
Qed.

Lemma first_index_min (names : list string) (name : string) (k : nat) :
  k < Catalog.first_index name names -> nth k names EmptyString <> name.
Proof.
  revert k. induction names as [|n names IH]; intros k Hk; [cbn in Hk; lia|].
  cbn [Catalog.first_index] in Hk. destruct (String.eqb_spec n name) as [E|N]; [lia|].
  destruct k as [|k]; cbn [nth]; [exact N | apply IH; lia].
Qed.

Lemma nth_pluck (key : string) (items : list json) (names : list string) (k : nat) (item : json) :
  Catalog.pluck key items = Catalog.Ok (Catalog.strings names) ->
  nth_error items k = Some item ->
  Catalog.getitem item key = Catalog.Ok (JString (nth k names EmptyString)).
Proof.
  revert names k. induction items as [|x rest IH]; intros names k H Hk.
  - destruct k; discriminate.
  - destruct (pluck_strings_cons _ _ _ _ H) as (n & names' & -> & Hitem & Hrest).
    destruct k as [|k]; cbn [nth_error nth] in *.
    + injection Hk as <-. exact Hitem.
    + exact (IH names' k Hrest Hk).
Qed.

(** X11. Picking a name from the list made of the items' names and looking it up
    again gives the first item of that name, which is the item at the picked
    position when the names are all different. *)
Theorem selection_finds_first_match (key : string) (items : list json)
    (names : list string) (i : nat) :
  Catalog.pluck key items = Catalog.Ok (Catalog.strings names) ->
  i < List.length names ->
  exists (k : nat) (item : json),
    Catalog.next_match py_eq key (Catalog.selectbox (Catalog.strings names) i) items
    = Catalog.Ok (Some item)
    /\ nth_error items k = Some item
    /\ k <= i
    /\ (forall j, j < k -> nth j names EmptyString <> nth i names EmptyString)
    /\ Catalog.getitem item key = Catalog.Ok (Catalog.selectbox (Catalog.strings names) i)
    /\ (NoDup names -> k = i).
Proof.
  intros H Hi.
  assert (S : Catalog.selectbox (Catalog.strings names) i = JString (nth i names EmptyString)).
  { unfold Catalog.selectbox, Catalog.strings.
    rewrite (nth_indep _ JNull (JString EmptyString)) by (now rewrite length_map).
    apply map_nth. }
  rewrite S. set (name := nth i names EmptyString).
  destruct (first_index_le names i Hi) as [Hle Hnth]. fold name in Hle, Hnth.
  pose proof (pluck_length _ _ _ H) as L. unfold Catalog.strings in L. rewrite length_map in L.
  destruct (nth_error items (Catalog.first_index name names)) as [item|] eqn:E.
  - exists (Catalog.first_index name names), item.
    rewrite (next_match_first key items names name H), E.
    repeat split; try assumption.
    + intros j Hj. exact (first_index_min names name j Hj).
    + rewrite (nth_pluck _ _ _ _ _ H E), Hnth. reflexivity.
    + intros N. exact (first_index_nodup names i N Hi).
  - apply nth_error_None in E. lia.
Qed.


Lemma selectbox_strings (names : list string) (i : nat) :
  i < List.length names ->
  Catalog.selectbox (Catalog.strings names) i = JString (nth i names EmptyString).
Proof.
  intros Hi. unfold Catalog.selectbox, Catalog.strings.
  rewrite (nth_indep _ JNull (JString EmptyString)) by (now rewrite length_map).
  apply map_nth.
Qed.

(** X12. On a catalog of the expected shape, picking investor [i] and deal [j]
    shows the portfolio and the deal found by name. *)
Theorem deal_selection_well_formed (members : dict json) (ps : list json)
    (investor_names : list string) (i : nat) (portfolio : json)
    (ds : list json) (deal_names : list string) (j : nat) :
  dict_get "portfolios" members = Some (JArray ps) ->
  Catalog.pluck "Investor" ps = Catalog.Ok (Catalog.strings investor_names) ->
  i < List.length investor_names ->
  nth_error ps (Catalog.first_index (nth i investor_names EmptyString) investor_names)
  = Some portfolio ->
  Catalog.getitem portfolio "Deals" = Catalog.Ok (JArray ds) ->
  Catalog.pluck "target_company_name" ds = Catalog.Ok (Catalog.strings deal_names) ->
  j < List.length deal_names ->
  Catalog.deal_selection py_eq number_is_zero (JObject members) i j
  = Catalog.Ok
      (Catalog.deals_shown portfolio (Catalog.strings deal_names)
         (JString (nth j deal_names EmptyString))
         (nth_error ds (Catalog.first_index (nth j deal_names EmptyString) deal_names)))
  /\ Catalog.getitem portfolio "Investor"
     = Catalog.Ok (JString (nth i investor_names EmptyString)).
Proof.
  intros Hps Hinv Hi Hp Hdeals Hnames Hj.
  split.
  - unfold Catalog.deal_selection, Catalog.investors, Catalog.selected_portfolio,
      Catalog.portfolios, Catalog.get.
    rewrite Hps. cbn [Catalog.bind Catalog.iterate]. rewrite Hinv. cbn [Catalog.bind].
    assert (O : Catalog.investor_options (Catalog.strings investor_names)
                = Catalog.strings investor_names)
      by (destruct investor_names; [cbn in Hi; lia | reflexivity]).
    rewrite O, (selectbox_strings _ _ Hi), (next_match_first _ _ _ _ Hinv), Hp.
    cbn [Catalog.bind].
    destruct portfolio as [| | | | |pm]; try discriminate.
    cbn [Catalog.getitem] in Hdeals.
    destruct (dict_get "Deals" pm) as [v|] eqn:D; [|discriminate].
    injection Hdeals as ->.
    assert (T : Catalog.truth number_is_zero (JObject pm) = true)
      by (destruct pm; [discriminate | reflexivity]).
    rewrite T. cbn [Catalog.py_in Catalog.bind Catalog.getitem]. unfold dict_has.
    rewrite D. cbn [Catalog.bind Catalog.iterate]. rewrite Hnames. cbn [Catalog.bind].
    rewrite (selectbox_strings _ _ Hj), (next_match_first _ _ _ _ Hnames). reflexivity.
  - destruct (first_index_le investor_names i Hi) as [_ E].
    rewrite (nth_pluck _ _ _ _ _ Hinv Hp), E. reflexivity.
Qed.

(** X13. A catalog without portfolios gives the one placeholder option and the
    "no deals" branch, whatever is picked. *)
Theorem no_portfolio_no_deals (deal_data : json) (i j : nat) :
  Catalog.portfolios deal_data = Catalog.Ok [] ->
  Catalog.investors deal_data = Catalog.Ok []
  /\ Catalog.investor_options [] = [JString "No investors found"]
  /\ Catalog.deal_selection py_eq number_is_zero deal_data i j = Catalog.Ok Catalog.no_deals.
Proof.
  intros H. unfold Catalog.deal_selection, Catalog.investors, Catalog.selected_portfolio.
  rewrite H. repeat split.
Qed.

Lemma pluck_missing_key (key : string) (items : list json) :
  (forall item, In item items -> exists members, item = JObject members) ->
  (exists members, In (JObject members) items /\ dict_get key members = None) ->
  Catalog.pluck key items = Catalog.Err (Catalog.KeyError key).
Proof.
  induction items as [|item rest IH]; intros Hobj [members [Hin Hnone]]; [contradiction|].
  cbn [Catalog.pluck]. unfold Catalog.bind.
  destruct (Hobj item (or_introl eq_refl)) as [m ->]. cbn [Catalog.getitem].
  destruct (dict_get key m) as [x|] eqn:E; [|reflexivity].
  rewrite IH; [reflexivity | intros it Hit; apply Hobj; now right |].
  destruct Hin as [Hin|Hin]; [injection Hin as ->; congruence|].
  exists members. split; assumption.
Qed.

(** X14. One portfolio without the "Investor" key is enough for the page to end
    with a [KeyError], before anything of the catalog is shown. *)
Theorem missing_investor_raises (deal_data : json) (ps : list json) (i j : nat) :
  Catalog.portfolios deal_data = Catalog.Ok ps ->
  (forall p, In p ps -> exists members, p = JObject members) ->
  (exists members, In (JObject members) ps /\ dict_get "Investor" members = None) ->
  Catalog.deal_selection py_eq number_is_zero deal_data i j
  = Catalog.Err (Catalog.KeyError "Investor").
Proof.
  intros H Hobj Hmiss. unfold Catalog.deal_selection, Catalog.investors.
  rewrite H. cbn [Catalog.bind]. rewrite (pluck_missing_key _ _ Hobj Hmiss). reflexivity.
Qed.

End CatalogFacts.

(** ** The upload offered when nothing was loaded *)

Section UploadFacts.

Variable path_exists : string -> bool.
Variable open_read : string -> option string.
Variable json_loads : string -> option json.
Variable script_dir : string.
Variable exn_text : py_exn -> string.
Variable getcwd : string.
Variable upload_error_text : string -> string.

Let fallback := Catalog.upload_fallback json_loads upload_error_text.

(** X15. When the loader could not read its file, the catalog of the page is
    the uploaded file if it parses and the empty catalog otherwise; the request
    to upload is shown in every case. *)
Theorem upload_after_failed_load (e : py_exn) (uploaded_file : option string) :
  json_load_file open_read json_loads (located_path path_exists script_dir) = Raise e ->
  snd (load_deal_data path_exists open_read json_loads script_dir exn_text getcwd)
  = Return empty_catalog
  /\ exists notices,
       fallback empty_catalog uploaded_file
       = Catalog.Ok
           (Catalog.st_warning Catalog.upload_prompt :: notices,
            match uploaded_file with
            | None => empty_catalog
            | Some text =>
                match json_loads text with
                | Some data => data
                | None => empty_catalog
                end
            end).
Proof.
  intros H. split.
  - rewrite load_deal_data_located, H. reflexivity.
  - unfold fallback, Catalog.upload_fallback. cbn.
    destruct uploaded_file as [text|]; [|eexists; reflexivity].
    destruct (json_loads text); eexists; reflexivity.
Qed.

(** X16. A catalog that has a portfolio is never replaced: the uploader is not
    shown and a file in it is ignored. *)
Theorem loaded_catalog_ignores_upload (members : dict json) (p : json) (ps : list json)
    (uploaded_file : option string) :
  dict_get "portfolios" members = Some (JArray (p :: ps)) ->
  fallback (JObject members) uploaded_file = Catalog.Ok ([], JObject members).
Proof.
  intros H. unfold fallback, Catalog.upload_fallback, Catalog.get. rewrite H. reflexivity.
Qed.

(** X17. The catalog is used as a dict without a check.  A file whose top level
    is not an object, or whose "portfolios" entry is null, a number or a
    boolean, is returned by the loader as it is and then ends the page with an
    exception. *)
Theorem malformed_catalog_raises (deal_data : json) (uploaded_file : option string) :
  ((forall members, deal_data <> JObject members) ->
   fallback deal_data uploaded_file = Catalog.Err Catalog.AttributeError)
  /\ (forall members v,
        deal_data = JObject members ->
        dict_get "portfolios" members = Some v ->
        Catalog.iterate v = Catalog.Err Catalog.TypeError ->
        fallback deal_data uploaded_file = Catalog.Err Catalog.TypeError).
Proof.
  split.
  - intros H. unfold fallback, Catalog.upload_fallback.
    destruct deal_data; try reflexivity. now contradiction (H members).
  - intros members v -> Hv Hit. unfold fallback, Catalog.upload_fallback, Catalog.get.
    rewrite Hv. destruct v; try discriminate; reflexivity.
Qed.

End UploadFacts.

(** ** The details of the selected deal *)

Section DetailsFacts.

Variable py_str : json -> string.
Variable characters : string -> list string.
Variable py_eq : json -> json -> bool.
Variable number_is_zero : string -> bool.

Let deal_column := Catalog.deal_column py_str characters number_is_zero.
Let details_column := Catalog.details_column py_str characters py_eq number_is_zero.
Let country_text := Catalog.country_text py_str characters.
Let optional_line := Catalog.optional_line py_str py_eq number_is_zero.

Lemma all_strings_strings (names : list string) :
  Catalog.all_strings (Catalog.strings names) = Catalog.Ok names.
Proof.
  induction names as [|n names IH]; [reflexivity|].
  change (Catalog.strings (n :: names)) with (JString n :: Catalog.strings names).
  cbn [Catalog.all_strings]. now rewrite IH.
Qed.

Lemma join_strings (sep : string) (names : list string) :
  Catalog.join characters sep (JArray (Catalog.strings names))
  = Catalog.Ok (String.concat sep names).
Proof. unfold Catalog.join. now rewrite all_strings_strings. Qed.

Lemma join_scalar (sep : string) (v : json) :
  Catalog.iterate v = Catalog.Err Catalog.TypeError ->
  Catalog.join characters sep v = Catalog.Err Catalog.TypeError.
Proof. destruct v; try discriminate; reflexivity. Qed.

Lemma optional_line_total (label key : string) (members : dict json) :
  exists written, optional_line label key (JObject members) = Catalog.Ok written.
Proof.
  unfold optional_line, Catalog.optional_line. cbn [Catalog.py_in Catalog.bind Catalog.getitem].
  unfold dict_has. destruct (dict_get key members) as [v|]; [|eexists; reflexivity].
  cbn [Catalog.bind]. destruct (Catalog.truth number_is_zero v); eexists; reflexivity.
Qed.

Lemma optional_line_absent (label key : string) (members : dict json) :
  dict_get key members = None ->
  optional_line label key (JObject members) = Catalog.Ok [].
Proof.
  intros H. unfold optional_line, Catalog.optional_line.
  cbn [Catalog.py_in Catalog.bind]. unfold dict_has. now rewrite H.
Qed.

Lemma deal_link_total (name : json) (members : dict json) :
  exists written,
    Catalog.deal_link py_str number_is_zero name (JObject members) = Catalog.Ok written.
Proof.
  unfold Catalog.deal_link. cbn [Catalog.get Catalog.bind Catalog.getitem].
  destruct (dict_get "deal_url" members) as [v|]; [|eexists; reflexivity].
  destruct (Catalog.truth number_is_zero v); eexists; reflexivity.
Qed.

Lemma portfolio_link_total (members : dict json) (investor : json) :
  dict_get "Investor" members = Some investor ->
  exists written,
    Catalog.portfolio_link py_str number_is_zero (JObject members) = Catalog.Ok written.
Proof.
  intros H. unfold Catalog.portfolio_link. cbn [Catalog.get Catalog.bind Catalog.getitem].
  rewrite H. destruct (dict_get "Investor_portfolio_url" members) as [v|]; [|eexists; reflexivity].
  destruct (Catalog.truth number_is_zero v); eexists; reflexivity.
Qed.

Lemma country_text_total (members : dict json) :
  (forall items, dict_get "target_country" members = Some (JArray items) ->
                 exists names, items = Catalog.strings names) ->
  exists text, country_text (JObject members) = Catalog.Ok text.
Proof.
  intros H. unfold country_text, Catalog.country_text. cbn [Catalog.get Catalog.bind].
  destruct (dict_get "target_country" members) as [v|] eqn:E; [|eexists; reflexivity].
  destruct v; try (eexists; reflexivity).
  destruct (H items eq_refl) as [names ->]. rewrite join_strings. eexists; reflexivity.
Qed.

(** X18. Both columns are written without an exception when the sectors, if
    given, are a list of strings and the country, if it is a list, is a list
    of strings; every other field may hold anything or be missing. *)
Theorem details_without_exception (portfolio_members deal_members : dict json)
    (investor selected_deal_name : json) :
  dict_get "Investor" portfolio_members = Some investor ->
  (forall v, dict_get "target_sectors" deal_members = Some v ->
             exists names, v = JArray (Catalog.strings names)) ->
  (forall items, dict_get "target_country" deal_members = Some (JArray items) ->
                 exists names, items = Catalog.strings names) ->
  exists first second,
    deal_column (Some (JObject deal_members)) = Catalog.Ok first
    /\ details_column (JObject portfolio_members) selected_deal_name
         (Some (JObject deal_members)) = Catalog.Ok second.
Proof.
  intros Hinv Hsec Hcountry.
  assert (C1 : exists first, deal_column (Some (JObject deal_members)) = Catalog.Ok first).
  { unfold deal_column, Catalog.deal_column.
    destruct (Catalog.truth number_is_zero (JObject deal_members)); [|eexists; reflexivity].
    cbn [Catalog.get Catalog.bind].
    destruct (dict_get "target_sectors" deal_members) as [v|] eqn:E.
    - destruct (Hsec v eq_refl) as [names ->]. rewrite join_strings. eexists; reflexivity.
    - change (JArray [JString "Unknown"]) with (JArray (Catalog.strings ["Unknown"])).
      rewrite join_strings. eexists; reflexivity. }
  destruct C1 as [first C1]. exists first.
  unfold details_column, Catalog.details_column.
  destruct (Catalog.truth number_is_zero (JObject deal_members));
    [|eexists; split; [exact C1 | reflexivity]].
  destruct (country_text_total deal_members Hcountry) as [country Ec].
  unfold country_text in Ec. rewrite Ec. cbn [Catalog.bind Catalog.get].
  destruct (optional_line_total "**Investment Date:** " "investment_date" deal_members) as [o1 E1].
  destruct (optional_line_total "**Deal Type:** " "investment_type" deal_members) as [o2 E2].
  destruct (optional_line_total "**Deal Size:** " "investment_amount" deal_members) as [o3 E3].
  destruct (optional_line_total "**Turnover:** " "target_turnover" deal_members) as [o4 E4].
  destruct (optional_line_total "**Employees:** " "target_employee_no" deal_members) as [o5 E5].
  destruct (portfolio_link_total portfolio_members investor Hinv) as [o6 E6].
  destruct (deal_link_total selected_deal_name deal_members) as [o7 E7].
  unfold optional_line in *. rewrite E1, E2, E3, E4, E5, E6, E7. cbn [Catalog.bind].
  eexists. split; [exact C1 | reflexivity].
Qed.

(** X19. The sectors are joined without looking at their type, the country only
    when it is a list: sectors that are null, a number or a boolean end the
    page with a [TypeError], a country of that kind is shown as text. *)
Theorem scalar_sectors_raise (deal_members : dict json) (v : json) :
  Catalog.iterate v = Catalog.Err Catalog.TypeError ->
  (dict_get "target_sectors" deal_members = Some v ->
   deal_column (Some (JObject deal_members)) = Catalog.Err Catalog.TypeError)
  /\ (dict_get "target_country" deal_members = Some v ->
      country_text (JObject deal_members) = Catalog.Ok (py_str v)).
Proof.
  intros Hv. split; intros H.
  - unfold deal_column, Catalog.deal_column.
    assert (T : Catalog.truth number_is_zero (JObject deal_members) = true)
      by (destruct deal_members; [discriminate | reflexivity]).
    rewrite T. cbn [Catalog.get Catalog.bind]. rewrite H, (join_scalar _ _ Hv). reflexivity.
  - unfold country_text, Catalog.country_text. cbn [Catalog.get Catalog.bind]. rewrite H.
    destruct v; try discriminate; reflexivity.
Qed.

(** X20. A deal that has none of the descriptive fields is shown with the
    placeholders and nothing else. *)
Theorem bare_deal_placeholders (portfolio_members deal_members : dict json) (name : string) :
  deal_members <> [] ->
  (forall key,
     In key [ "target_sectors"; "target_location"; "target_country";
              "target_business_description"; "investment_date"; "investment_type";
              "investment_amount"; "target_turnover"; "target_employee_no"; "deal_url" ] ->
     dict_get key deal_members = None) ->
  dict_get "Investor_portfolio_url" portfolio_members = None ->
  deal_column (Some (JObject deal_members))
  = Catalog.Ok [ Catalog.st_write "**Sectors:** Unknown";
                 Catalog.st_write "**Location:** Unknown";
                 Catalog.st_markdown "### Report Configuration" ]
  /\ details_column (JObject portfolio_members) (JString name) (Some (JObject deal_members))
     = Catalog.Ok
         [ Catalog.st_subheader ("Deal Details: " ++ name);
           Catalog.st_markdown
             (nl
              ++ line 12 ("**Company:** " ++ name ++ "  ")
              ++ line 12 "**Country:** Unknown  "
              ++ line 12 "**Business Description:** No description available"
              ++ spaces 12) ].
Proof.
  intros Hne Habs Hurl.
  assert (T : Catalog.truth number_is_zero (JObject deal_members) = true)
    by (destruct deal_members; [contradiction | reflexivity]).
  assert (A : forall key,
            In key [ "target_sectors"; "target_location"; "target_country";
                     "target_business_description"; "investment_date"; "investment_type";
                     "investment_amount"; "target_turnover"; "target_employee_no"; "deal_url" ] ->
            dict_get key deal_members = None) by exact Habs.
  split.
  - unfold deal_column, Catalog.deal_column. rewrite T. cbn [Catalog.get Catalog.bind].
    rewrite (A "target_sectors"), (A "target_location") by (cbn; tauto). reflexivity.
  - unfold details_column, Catalog.details_column. rewrite T.
    unfold Catalog.country_text. cbn [Catalog.get Catalog.bind].
    rewrite (A "target_country"), (A "target_business_description") by (cbn; tauto).
    cbn [Catalog.bind].
    pose proof (fun label key H => optional_line_absent label key deal_members (A key H)) as O.
    unfold optional_line in O.
    rewrite !O by (cbn; tauto). cbn [Catalog.bind].
    unfold Catalog.portfolio_link, Catalog.deal_link. cbn [Catalog.get Catalog.bind].
    rewrite Hurl, (A "deal_url") by (cbn; tauto). reflexivity.
Qed.

End DetailsFacts.

(** ** Instances *)

Lemma title_survives_download_witness :
  find (looks_like_title ascii_isupper (Investor sample_page))
       (firstn 5 (lines_of (strip hash_response)))
  = Some "# BGF Backs F# Tooling Firm"
  /\ extract_title ascii_isupper sample_page hash_response <> EmptyString
  /\ extract_title ascii_isupper sample_page
       (report_text (extract_title ascii_isupper sample_page hash_response) hash_response)
     = extract_title ascii_isupper sample_page hash_response.
Proof.
  assert (H : find (looks_like_title ascii_isupper (Investor sample_page))
                   (firstn 5 (lines_of (strip hash_response)))
              = Some "# BGF Backs F# Tooling Firm") by reflexivity.
  assert (N : extract_title ascii_isupper sample_page hash_response <> EmptyString)
    by discriminate.
  split; [exact H|]. split; [exact N|].
  exact (title_survives_download ascii_isupper sample_page hash_response _ H N).
Defined.

Lemma download_starts_with_heading_witness :
  find (looks_like_title ascii_isupper (Investor sample_page))
       (firstn 5 (lines_of (strip hash_response)))
  = Some "# BGF Backs F# Tooling Firm"
  /\ lines_of (report_text (extract_title ascii_isupper sample_page hash_response)
                 hash_response)
     = ("# " ++ extract_title ascii_isupper sample_page hash_response)
       :: EmptyString :: lines_of hash_response.
Proof.
  assert (H : find (looks_like_title ascii_isupper (Investor sample_page))
                   (firstn 5 (lines_of (strip hash_response)))
              = Some "# BGF Backs F# Tooling Firm") by reflexivity.
  split; [exact H|].
  exact (proj2 (download_starts_with_heading ascii_isupper sample_page hash_response _ H)).
Defined.

(** A press with a section ticked, answered by the agent, and a press with
    nothing ticked and citations off. *)
Lemma agent_called_once_iff_guard_witness :
  include_sources sample_page || some_section_ticked sample_page = true
  /\ agent_calls (on_generate ascii_isupper sample_dumps standard_only_agent
                    (Some sample_page)) = 1
  /\ trace (on_generate ascii_isupper sample_dumps standard_only_agent (Some sample_page))
     = st_spinner "Generating Deal Summary Report for Anstey Horne..."
       :: graph_invoke_call (request sample_dumps sample_page)
       :: trace (display_result ascii_isupper sample_page (Some sample_state))
  /\ include_sources (no_section_page false) || some_section_ticked (no_section_page false)
     = false
  /\ on_generate ascii_isupper sample_dumps standard_only_agent (Some (no_section_page false))
     = {| trace := [st_error no_section_message]; raised := None |}.
Proof.
  assert (G : include_sources sample_page || some_section_ticked sample_page = true)
    by reflexivity.
  assert (N : include_sources (no_section_page false)
              || some_section_ticked (no_section_page false) = false) by reflexivity.
  pose proof (agent_called_once_iff_guard ascii_isupper sample_dumps standard_only_agent)
    as (_ & _ & A).
  split; [exact G|].
  split; [exact (proj1 (A sample_page))|].
  split; [exact (f_equal trace (proj1 (proj2 (A sample_page)) G))|].
  split; [exact N|].
  exact (proj2 (proj2 (A (no_section_page false))) N).
Defined.

Lemma last_message_displayed_witness :
  dict_get "messages" sample_state
  = Some (SMessages (["Searching."] ++ ["# BGF Backs Anstey Horne"])%list)
  /\ trace (display_result ascii_isupper sample_page (Some sample_state))
     = [ st_subheader "BGF Backs Anstey Horne";
         st_markdown "---";
         st_markdown "# BGF Backs Anstey Horne";
         st_download_button "Download Report"
           ("# BGF Backs Anstey Horne" ++ nl ++ nl ++ "# BGF Backs Anstey Horne")
           "Anstey Horne_Deal_Summary_Report.md" "text/markdown" ].
Proof.
  assert (H : dict_get "messages" sample_state
              = Some (SMessages (["Searching."] ++ ["# BGF Backs Anstey Horne"])%list))
    by reflexivity.
  split; [exact H|].
  exact (f_equal trace (last_message_displayed ascii_isupper sample_page sample_state _ _ H)).
Defined.

Lemma empty_messages_raise_witness :
  dict_get "messages" silent_state = Some (SMessages [])
  /\ display_result ascii_isupper sample_page (Some silent_state)
     = {| trace := []; raised := Some IndexError |}.
Proof.
  assert (H : dict_get "messages" silent_state = Some (SMessages [])) by reflexivity.
  split; [exact H|].
  exact (proj1 (empty_messages_raise ascii_isupper sample_dumps (fun _ => Some silent_state)
                  sample_page silent_state H)).
Defined.

Lemma file_name_without_space_witness :
  free_of " " (selected_deal_name compact_page) = true
  /\ free_of " " (file_name compact_page) = true.
Proof.
  assert (H : free_of " " (selected_deal_name compact_page) = true) by reflexivity.
  split; [exact H | exact (file_name_without_space compact_page H)].
Defined.

Lemma research_parameters_range_witness :
  "Standard" <> "Basic" /\ "Standard" <> "Comprehensive"
  /\ research_parameters "Standard" = (4, 5).
Proof.
  assert (H1 : "Standard" <> "Basic") by discriminate.
  assert (H2 : "Standard" <> "Comprehensive") by discriminate.
  split; [exact H1|]. split; [exact H2|].
  exact (proj2 (proj2 (proj2 (research_parameters_range "Standard"))) H1 H2).
Defined.

Lemma include_sections_lookup_witness :
  In (report_type sample_page) report_types
  /\ In ("market_analysis", "Market Analysis") (section_catalog (report_type sample_page))
  /\ dict_get "market_analysis" (include_sections sample_page) = Some false.
Proof.
  assert (H1 : In (report_type sample_page) report_types) by (left; reflexivity).
  assert (H2 : In ("market_analysis", "Market Analysis")
                  (section_catalog (report_type sample_page)))
    by (right; right; left; reflexivity).
  split; [exact H1|]. split; [exact H2|].
  exact (proj1 (include_sections_lookup sample_page) H1 _ H2).
Defined.

Lemma selection_finds_first_match_witness :
  (forall a b : string, Catalog.string_eq (JString a) (JString b) = String.eqb a b)
  /\ Catalog.pluck "Investor" sample_portfolios
     = Catalog.Ok (Catalog.strings ["BGF"; "Tikehau Capital"])
  /\ 1 < List.length ["BGF"; "Tikehau Capital"]
  /\ exists k item,
       Catalog.next_match Catalog.string_eq "Investor"
         (Catalog.selectbox (Catalog.strings ["BGF"; "Tikehau Capital"]) 1) sample_portfolios
       = Catalog.Ok (Some item)
       /\ nth_error sample_portfolios k = Some item.
Proof.
  assert (E : forall a b : string,
            Catalog.string_eq (JString a) (JString b) = String.eqb a b) by reflexivity.
  assert (H : Catalog.pluck "Investor" sample_portfolios
              = Catalog.Ok (Catalog.strings ["BGF"; "Tikehau Capital"])) by reflexivity.
  assert (L : 1 < List.length ["BGF"; "Tikehau Capital"]) by (cbn; lia).
  split; [exact E|]. split; [exact H|]. split; [exact L|].
  destruct (selection_finds_first_match Catalog.string_eq E "Investor" sample_portfolios
              ["BGF"; "Tikehau Capital"] 1 H L) as (k & item & M & N & _).
  exists k, item. split; assumption.
Defined.

Lemma deal_selection_well_formed_witness :
  Catalog.deal_selection Catalog.string_eq (fun _ => false) (JObject sample_catalog_members) 0 1
  = Catalog.Ok
      (Catalog.deals_shown (nth 0 sample_portfolios JNull)
         (Catalog.strings ["Anstey Horne"; "3DISC"]) (JString "3DISC")
         (nth_error sample_deals 1)).
Proof.
  exact (proj1 (deal_selection_well_formed Catalog.string_eq (fun _ => false)
                  (fun a b => eq_refl) sample_catalog_members sample_portfolios
                  ["BGF"; "Tikehau Capital"] 0 (nth 0 sample_portfolios JNull)
                  sample_deals ["Anstey Horne"; "3DISC"] 1
                  eq_refl eq_refl (Nat.lt_0_succ 1) eq_refl eq_refl eq_refl (Nat.lt_succ_diag_r 1))).
Defined.

Lemma no_portfolio_no_deals_witness :
  Catalog.portfolios empty_catalog = Catalog.Ok []
  /\ Catalog.deal_selection Catalog.string_eq (fun _ => false) empty_catalog 0 0
     = Catalog.Ok Catalog.no_deals.
Proof.
  assert (H : Catalog.portfolios empty_catalog = Catalog.Ok []) by reflexivity.
  split; [exact H|].
  exact (proj2 (proj2 (no_portfolio_no_deals Catalog.string_eq (fun _ => false)
                         empty_catalog 0 0 H))).
Defined.

Lemma missing_investor_raises_witness :
  let ps := [JObject [("Investor", JString "BGF")]; JObject [("Deals", JArray [])]] in
  Catalog.portfolios (JObject [("portfolios", JArray ps)]) = Catalog.Ok ps
  /\ Catalog.deal_selection Catalog.string_eq (fun _ => false)
       (JObject [("portfolios", JArray ps)]) 0 0
     = Catalog.Err (Catalog.KeyError "Investor").
Proof.
  cbv zeta.
  set (ps := [JObject [("Investor", JString "BGF")]; JObject [("Deals", JArray [])]]).
  assert (H : Catalog.portfolios (JObject [("portfolios", JArray ps)]) = Catalog.Ok ps)
    by reflexivity.
  split; [exact H|].
  apply (missing_investor_raises Catalog.string_eq (fun _ => false) _ ps 0 0 H).
  - intros p [<-|[<-|[]]]; eexists; reflexivity.
  - exists [("Deals", JArray [])]. split; [right; left; reflexivity | reflexivity].
Defined.

Lemma upload_after_failed_load_witness :
  json_load_file (fun _ => None) sample_loads (located_path (fun _ => false) "backend/src")
  = Raise (OSError absolute_path)
  /\ exists notices,
       Catalog.upload_fallback sample_loads (fun _ => "error") empty_catalog (Some "{}")
       = Catalog.Ok (Catalog.st_warning Catalog.upload_prompt :: notices, JObject []).
Proof.
  assert (H : json_load_file (fun _ => None) sample_loads
                (located_path (fun _ => false) "backend/src")
              = Raise (OSError absolute_path)) by reflexivity.
  split; [exact H|].
  exact (proj2 (upload_after_failed_load (fun _ => false) (fun _ => None) sample_loads
                  "backend/src" (fun _ => "error") "/app" (fun _ => "error")
                  (OSError absolute_path) (Some "{}") H)).
Defined.

Lemma loaded_catalog_ignores_upload_witness :
  dict_get "portfolios" sample_catalog_members
  = Some (JArray (nth 0 sample_portfolios JNull :: tl sample_portfolios))
  /\ Catalog.upload_fallback sample_loads (fun _ => "error")
       (JObject sample_catalog_members) (Some "{}")
     = Catalog.Ok ([], JObject sample_catalog_members).
Proof.
  assert (H : dict_get "portfolios" sample_catalog_members
              = Some (JArray (nth 0 sample_portfolios JNull :: tl sample_portfolios)))
    by reflexivity.
  split; [exact H|].
  exact (loaded_catalog_ignores_upload sample_loads (fun _ => "error")
           sample_catalog_members _ _ (Some "{}") H).
Defined.

Lemma malformed_catalog_raises_witness :
  (forall members, JArray [] <> JObject members)
  /\ Catalog.upload_fallback sample_loads (fun _ => "error") (JArray []) None
     = Catalog.Err Catalog.AttributeError.
Proof.
  assert (H : forall members, JArray [] <> JObject members) by discriminate.
  split; [exact H|].
  exact (proj1 (malformed_catalog_raises sample_loads (fun _ => "error") (JArray []) None) H).
Defined.

Lemma details_without_exception_witness :
  let deal_members := [("target_company_name", JString "Anstey Horne");
                       ("target_sectors", JArray [JString "Surveying"; JString "Property"])] in
  let portfolio_members := [("Investor", JString "BGF")] in
  dict_get "Investor" portfolio_members = Some (JString "BGF")
  /\ (forall v, dict_get "target_sectors" deal_members = Some v ->
                exists names, v = JArray (Catalog.strings names))
  /\ (forall items, dict_get "target_country" deal_members = Some (JArray items) ->
                    exists names, items = Catalog.strings names)
  /\ exists first second,
       Catalog.deal_column (fun _ => "None") (fun _ => []) (fun _ => false)
         (Some (JObject deal_members)) = Catalog.Ok first
       /\ Catalog.details_column (fun _ => "None") (fun _ => []) Catalog.string_eq
            (fun _ => false) (JObject portfolio_members) (JString "Anstey Horne")
            (Some (JObject deal_members)) = Catalog.Ok second.
Proof.
  cbv zeta.
  assert (H1 : dict_get "Investor" [("Investor", JString "BGF")] = Some (JString "BGF"))
    by reflexivity.
  assert (H2 : forall v,
            dict_get "target_sectors"
              [("target_company_name", JString "Anstey Horne");
               ("target_sectors", JArray [JString "Surveying"; JString "Property"])] = Some v ->
            exists names, v = JArray (Catalog.strings names)).
  { intros v E. injection E as <-. exists ["Surveying"; "Property"]. reflexivity. }
  assert (H3 : forall items,
            dict_get "target_country"
              [("target_company_name", JString "Anstey Horne");
               ("target_sectors", JArray [JString "Surveying"; JString "Property"])]
            = Some (JArray items) ->
            exists names, items = Catalog.strings names) by discriminate.
  split; [exact H1|]. split; [exact H2|]. split; [exact H3|].
  exact (details_without_exception (fun _ => "None") (fun _ => []) Catalog.string_eq
           (fun _ => false) _ _ (JString "BGF") (JString "Anstey Horne") H1 H2 H3).
Defined.

Lemma scalar_sectors_raise_witness :
  let deal_members := [("target_company_name", JString "3DISC"); ("target_sectors", JNull)] in
  Catalog.iterate JNull = Catalog.Err Catalog.TypeError
  /\ dict_get "target_sectors" deal_members = Some JNull
  /\ Catalog.deal_column (fun _ => "None") (fun _ => []) (fun _ => false)
       (Some (JObject deal_members)) = Catalog.Err Catalog.TypeError.
Proof.
  cbv zeta.
  assert (H1 : Catalog.iterate JNull = Catalog.Err Catalog.TypeError) by reflexivity.
  assert (H2 : dict_get "target_sectors"
                 [("target_company_name", JString "3DISC"); ("target_sectors", JNull)]
               = Some JNull) by reflexivity.
  split; [exact H1|]. split; [exact H2|].
  exact (proj1 (scalar_sectors_raise (fun _ => "None") (fun _ => []) (fun _ => false)
                  _ JNull H1) H2).
Defined.

Lemma bare_deal_placeholders_witness :
  let deal_members := [("target_company_name", JString "3DISC")] in
  deal_members <> []
  /\ Catalog.deal_column (fun _ => "None") (fun _ => []) (fun _ => false)
       (Some (JObject deal_members))
     = Catalog.Ok [ Catalog.st_write "**Sectors:** Unknown";
                    Catalog.st_write "**Location:** Unknown";
                    Catalog.st_markdown "### Report Configuration" ].
Proof.
  cbv zeta.
  assert (H1 : [("target_company_name", JString "3DISC")] <> []) by discriminate.
  split; [exact H1|].
  refine (proj1 (bare_deal_placeholders (fun _ => "None") (fun _ => []) Catalog.string_eq
                   (fun _ => false) [("Investor", JString "Galiena Capital")]
                   [("target_company_name", JString "3DISC")] "3DISC" H1 _ eq_refl)).
  intros key H.
  repeat (destruct H as [<-|H]; [reflexivity|]). contradiction.
Defined.
